(** * Transaction normalisation, metrics and filtering

    A shallow embedding of [services/transactionService.ts] (the
    [TransactionService] class of the dashboard) together with the part of
    the ECMAScript runtime the service relies on: IEEE-754 binary64
    numbers, [parseFloat], string lowering and search, and the [Date]
    operations used by the date-range filter.

    Layout: the runtime ([Module JS]), the provider payloads
    ([Module Wix]), exceptions and the provider interface, the service
    ([Module TransactionService]), the filter controls of the dashboard
    page ([Module Dashboard]), sample inputs ([Module Examples]); then the
    lemmas on exact binary64 sums and on the calendar, the properties of
    the service, and further properties of the filter engine, the metrics
    aggregator, the transformers, the fetch orchestrator and the
    dashboard controls. *)

From Stdlib Require Import ZArith List String Ascii Bool Lia Permutation.
From Stdlib Require Import Floats.SpecFloat.
From stdpp Require Import base option gmap pretty.
Import ListNotations.

Local Open Scope string_scope.
Local Open Scope Z_scope.

(* ===================================================================== *)
(** * The ECMAScript runtime fragment *)
(* ===================================================================== *)

Module JS.

(** ** Numbers

    A JavaScript [number] is an IEEE-754 binary64 value.  The standard
    library's [spec_float] is that type (with a single NaN), and its
    [SFadd]/[SFsub] are the correctly rounded (nearest, ties to even)
    operations behind [+] and [-]. *)

Definition prec : Z := 53.
Definition emax : Z := 1024.

Definition number : Type := spec_float.

Definition NaN : number := S754_nan.
Definition zero : number := S754_zero false.

Definition add : number -> number -> number := SFadd prec emax.
Definition sub : number -> number -> number := SFsub prec emax.

(** [dyadic n e] is the number nearest to [n * 2^e]; [ofZ n] is the number
    nearest to the integer [n] (exact below [2^53]). *)
Definition dyadic (n e : Z) : number := binary_normalize prec emax n e false.
Definition ofZ (n : Z) : number := dyadic n 0.

(** The canonical exponent and representation of [n * 2^e0]: the shape
    [dyadic n e0] takes when [n] has at most 53 bits and [2^e0] is a
    representable unit. *)
Definition expOf (n e0 : Z) : Z := fexp prec emax (Z.log2 (Z.abs n) + 1 + e0).

Definition canon (n e0 : Z) : number :=
  if n =? 0 then zero
  else S754_finite (n <? 0) (Z.to_pos (Z.abs n * 2 ^ (e0 - expOf n e0))) (expOf n e0).

(** The integer [n] with [x = n * 2^e0], for a finite [x] that is such a
    multiple. *)
Definition unitsOf (e0 : Z) (x : number) : Z :=
  match x with
  | S754_finite s m e =>
      cond_Zopp s (if e0 <=? e then Zpos m * 2 ^ (e - e0)
                   else Zpos m / 2 ^ (e0 - e))
  | _ => 0
  end.

(** The number nearest to [(-1)^neg * m * 10^e], for a digit string [m >= 0]:
    the value of a decimal literal and of [parseFloat]'s numeric prefix.
    A negative exponent is handled by a quotient with 64 extra bits and a
    sticky bit, which [binary_normalize] then rounds once. *)
Definition decimal_signed (neg : bool) (m e : Z) : number :=
  if m =? 0 then S754_zero neg
  else if 0 <=? e then
    binary_normalize prec emax (cond_Zopp neg (m * 10 ^ e)) 0 false
  else
    let d := 10 ^ (- e) in
    let s := 64 + Z.log2_up d in
    let q := (m * 2 ^ s) / d in
    let r := (m * 2 ^ s) mod d in
    binary_normalize prec emax
      (cond_Zopp neg (2 * q + (if r =? 0 then 0 else 1))) (- s - 1) false.

(** A non-negative decimal literal of the source: [decimal 18050 (-2)] is
    the literal [180.50]. *)
Definition decimal (m e : Z) : number := decimal_signed false m e.

(** ToBoolean on a number: [NaN], [+0] and [-0] are falsy. *)
Definition truthy_number (x : number) : bool :=
  match x with
  | S754_nan | S754_zero _ => false
  | _ => true
  end.

(** The sign test [x < 0]. *)
Definition is_negative (x : number) : bool :=
  match x with
  | S754_finite true _ _ | S754_infinity true => true
  | _ => false
  end.

(** Truncation of a finite number towards zero (the integer part taken by
    ToIntegerOrInfinity); [None] for [NaN] and the infinities. *)
Definition truncate (x : number) : option Z :=
  match x with
  | S754_zero _ => Some 0
  | S754_finite s m e =>
      Some (cond_Zopp s (if 0 <=? e then Zpos m * 2 ^ e
                         else Zpos m / 2 ^ (- e)))
  | _ => None
  end.

(** ** Strings

    Strings are sequences of code units; the model covers the code units
    U+0000 to U+00FF, one [ascii] each. *)

Definition code (c : ascii) : Z := Z.of_nat (nat_of_ascii c).

(** [a || d] for a possibly undefined string [a]: the empty string and
    [undefined] are falsy. *)
Definition truthy (a : option string) : bool :=
  match a with
  | Some s => negb (String.eqb s "")
  | None => false
  end.

Definition orElse (a : option string) (d : string) : string :=
  match a with
  | Some s => if String.eqb s "" then d else s
  | None => d
  end.

(** Optional chaining [a?.f] of a field that may itself be undefined. *)
Definition chain {A B : Type} (a : option A) (f : A -> option B) : option B :=
  match a with
  | Some x => f x
  | None => None
  end.

(** Template interpolation of a possibly undefined string. *)
Definition show (a : option string) : string :=
  match a with
  | Some s => s
  | None => "undefined"
  end.

(** Strict equality [===] of two possibly undefined strings. *)
Definition strictEq (a b : option string) : bool :=
  match a, b with
  | Some x, Some y => String.eqb x y
  | None, None => true
  | _, _ => false
  end.

Definition lowerChar (c : ascii) : ascii :=
  let n := code c in
  if ((65 <=? n) && (n <=? 90))
     || ((192 <=? n) && (n <=? 222) && negb (n =? 215))
  then ascii_of_nat (Z.to_nat (n + 32))
  else c.

Fixpoint toLowerCase (s : string) : string :=
  match s with
  | EmptyString => EmptyString
  | String c r => String (lowerChar c) (toLowerCase r)
  end.

(** [String.prototype.includes]: [q] occurs in [s] at some position. *)
Fixpoint includes (s q : string) : bool :=
  String.prefix q s ||
  match s with
  | EmptyString => false
  | String _ r => includes r q
  end.

(** ** parseFloat *)

Definition isWhiteSpace (c : ascii) : bool :=
  let n := code c in
  ((9 <=? n) && (n <=? 13)) || (n =? 32) || (n =? 160).

Fixpoint trimStart (s : string) : string :=
  match s with
  | String c r => if isWhiteSpace c then trimStart r else s
  | EmptyString => s
  end.

Definition isDigit (c : ascii) : bool :=
  (48 <=? code c) && (code c <=? 57).

(** Reads the longest run of decimal digits: its value continuing from
    [acc], the number of digits read, and the rest of the string. *)
Fixpoint digits (s : string) (acc cnt : Z) : Z * Z * string :=
  match s with
  | String c r =>
      if isDigit c then digits r (10 * acc + (code c - 48)) (cnt + 1)
      else (acc, cnt, s)
  | EmptyString => (acc, cnt, s)
  end.

Definition signOf (s : string) : bool * string :=
  match s with
  | String "+" r => (false, r)
  | String "-" r => (true, r)
  | _ => (false, s)
  end.

(** The exponent part (e, an optional sign, digits), read only when at
    least one digit follows. *)
Definition exponentPart (s : string) : Z :=
  match s with
  | String c r =>
      if (code c =? 101) || (code c =? 69) then
        let '(eneg, r1) := signOf r in
        let '(ev, ne, _) := digits r1 0 0 in
        if ne =? 0 then 0 else cond_Zopp eneg ev
      else 0
  | EmptyString => 0
  end.

(** [parseFloat]: skip leading white space, take the longest prefix that
    is a StrDecimalLiteral, and round its value; [NaN] when there is no
    such prefix. *)
Definition parseFloat (s : string) : number :=
  let '(neg, t1) := signOf (trimStart s) in
  if String.prefix "Infinity" t1 then S754_infinity neg
  else
    let '(ip, ni, t2) := digits t1 0 0 in
    let '(m, nf, t3) :=
      match t2 with
      | String "." r => digits r ip 0
      | _ => (ip, 0, t2)
      end in
    if (ni =? 0) && (nf =? 0) then NaN
    else decimal_signed neg m (exponentPart t3 - nf).

(** ** Dates

    A time value is a number of milliseconds since the epoch; [None] is
    the time value [NaN] of an invalid [Date].  The day and calendar
    functions are those of the language specification (Day, DayFromYear,
    YearFromTime, MonthFromTime, DateFromTime, MakeDay, MakeDate,
    TimeClip). *)

Definition timeValue : Type := option Z.

Definition msPerDay : Z := 86400000.

Definition Day (t : Z) : Z := t / msPerDay.
Definition TimeWithinDay (t : Z) : Z := t mod msPerDay.

Definition DaysInYear (y : Z) : Z :=
  if negb (y mod 4 =? 0) then 365
  else if negb (y mod 100 =? 0) then 366
  else if negb (y mod 400 =? 0) then 365
  else 366.

Definition DayFromYear (y : Z) : Z :=
  365 * (y - 1970) + (y - 1969) / 4 - (y - 1901) / 100 + (y - 1601) / 400.

(** The largest year whose first day is not after day [d]: the mean-year
    estimate is off by at most one. *)
Definition YearFromDay (d : Z) : Z :=
  let y0 := 1970 + (d * 400) / 146097 in
  if d <? DayFromYear y0 then y0 - 1
  else if DayFromYear (y0 + 1) <=? d then y0 + 1
  else y0.

Definition YearFromTime (t : Z) : Z := YearFromDay (Day t).

Definition leap (y : Z) : Z := if DaysInYear y =? 366 then 1 else 0.

Definition DayWithinYear (t : Z) : Z := Day t - DayFromYear (YearFromTime t).

Definition MonthFromTime (t : Z) : Z :=
  let d := DayWithinYear t in
  let l := leap (YearFromTime t) in
  if d <? 31 then 0
  else if d <? 59 + l then 1
  else if d <? 90 + l then 2
  else if d <? 120 + l then 3
  else if d <? 151 + l then 4
  else if d <? 181 + l then 5
  else if d <? 212 + l then 6
  else if d <? 243 + l then 7
  else if d <? 273 + l then 8
  else if d <? 304 + l then 9
  else if d <? 334 + l then 10
  else 11.

(** The day within the year on which month [m] (0 to 11) starts. *)
Definition monthStart (l m : Z) : Z :=
  match m with
  | 0 => 0
  | 1 => 31
  | 2 => 59 + l
  | 3 => 90 + l
  | 4 => 120 + l
  | 5 => 151 + l
  | 6 => 181 + l
  | 7 => 212 + l
  | 8 => 243 + l
  | 9 => 273 + l
  | 10 => 304 + l
  | _ => 334 + l
  end.

Definition DateFromTime (t : Z) : Z :=
  DayWithinYear t - monthStart (leap (YearFromTime t)) (MonthFromTime t) + 1.

Definition MakeDay (year month date : Z) : Z :=
  let ym := year + month / 12 in
  let mn := month mod 12 in
  DayFromYear ym + monthStart (leap ym) mn + date - 1.

Definition MakeDate (day time : Z) : Z := day * msPerDay + time.

Definition TimeClip (t : Z) : timeValue :=
  if 8640000000000000 <? Z.abs t then None else Some t.

(** The host environment of one call: the clock reading (the calls of the
    service are short, and every [Date.now()] and [new Date()] of one call
    sees the same reading), the local time zone adjustment
    [LocalTZA(t, isUTC)] and the host's [Date.parse]. *)
Record Env : Type := {
  now : Z;
  LocalTZA : Z -> bool -> Z;
  DateParse : string -> timeValue
}.

Definition LocalTime (env : Env) (t : Z) : Z := t + LocalTZA env t true.
Definition UTC (env : Env) (t : Z) : Z := t - LocalTZA env t false.

(** [new Date()] and [new Date(s)]. *)
Definition newDate (env : Env) : timeValue := Some (now env).
Definition newDateOf (env : Env) (s : string) : timeValue := DateParse env s.

(** [d.getDate()]: the day of the month in local time. *)
Definition getDate (env : Env) (d : timeValue) : number :=
  match d with
  | None => NaN
  | Some t => ofZ (DateFromTime (LocalTime env t))
  end.

(** [d.setDate(dt)]: the time value [d] holds afterwards. *)
Definition setDate (env : Env) (d : timeValue) (dt : number) : timeValue :=
  match d with
  | None => None
  | Some t =>
      let lt := LocalTime env t in
      match truncate dt with
      | None => None
      | Some k =>
          TimeClip (UTC env (MakeDate
            (MakeDay (YearFromTime lt) (MonthFromTime lt) k)
            (TimeWithinDay lt)))
      end
  end.

(** [a >= b] on two dates: a comparison of time values, false when either
    is [NaN]. *)
Definition dateGe (a b : timeValue) : bool :=
  match a, b with
  | Some x, Some y => y <=? x
  | _, _ => false
  end.

(** Decimal digits of [n], zero-padded to width [w]. *)
Fixpoint padded (w : nat) (n : Z) : string :=
  match w with
  | O => ""
  | S w' => padded w' (n / 10) +:+ String (ascii_of_nat (Z.to_nat (48 + n mod 10))) ""
  end.

(** [Date.prototype.toISOString] of a valid time value. *)
Definition toISOString (t : Z) : string :=
  let y := YearFromTime t in
  let ms := TimeWithinDay t in
  (if (0 <=? y) && (y <=? 9999) then padded 4 y
   else (if y <? 0 then "-" else "+") +:+ padded 6 (Z.abs y))
  +:+ "-" +:+ padded 2 (MonthFromTime t + 1)
  +:+ "-" +:+ padded 2 (DateFromTime t)
  +:+ "T" +:+ padded 2 (ms / 3600000)
  +:+ ":" +:+ padded 2 (ms / 60000 mod 60)
  +:+ ":" +:+ padded 2 (ms / 1000 mod 60)
  +:+ "." +:+ padded 3 (ms mod 1000) +:+ "Z".

(** [String(n)] for an integral number such as [Date.now()]. *)
Definition showZ (n : Z) : string := pretty n.

(** A reference [Date.parse] for the examples: it reads the UTC date-time
    form [YYYY-MM-DDTHH:mm:ssZ] and rejects every other string. *)
Definition field (s : string) (start len : nat) : option Z :=
  let f := String.substring start len s in
  let '(v, n, _) := digits f 0 0 in
  if n =? Z.of_nat len then Some v else None.

Definition daysInMonth (l m : Z) : Z :=
  match m with
  | 1 => 28 + l
  | 3 | 5 | 8 | 10 => 30
  | _ => 31
  end.

Definition isoParse (s : string) : timeValue :=
  if negb (Nat.eqb (String.length s) 20) then None
  else if negb (String.eqb (String.substring 4 1 s) "-"
                && String.eqb (String.substring 7 1 s) "-"
                && String.eqb (String.substring 10 1 s) "T"
                && String.eqb (String.substring 13 1 s) ":"
                && String.eqb (String.substring 16 1 s) ":"
                && String.eqb (String.substring 19 1 s) "Z") then None
  else
    match field s 0 4, field s 5 2, field s 8 2,
          field s 11 2, field s 14 2, field s 17 2 with
    | Some y, Some mo, Some d, Some h, Some mi, Some sc =>
        if (1 <=? mo) && (mo <=? 12)
           && (1 <=? d) && (d <=? daysInMonth (leap y) (mo - 1))
           && (h <=? 23) && (mi <=? 59) && (sc <=? 59)
        then TimeClip (MakeDate (MakeDay y (mo - 1) d)
                                (h * 3600000 + mi * 60000 + sc * 1000))
        else None
    | _, _, _, _, _, _ => None
    end.

(** An environment in UTC with the reference parser. *)
Definition utcEnv (clock : Z) : Env :=
  {| now := clock; LocalTZA := fun _ _ => 0; DateParse := isoParse |}.

(** ** parseInt

    [parseInt(s)] without a radix: leading white space and a sign are
    skipped, a [0x] or [0X] prefix selects radix 16 and radix 10 is used
    otherwise; the longest run of digits of that radix is read, and [NaN]
    is returned when it is empty. *)

Definition hexValue (c : ascii) : option Z :=
  let n := code c in
  if (48 <=? n) && (n <=? 57) then Some (n - 48)
  else if (97 <=? n) && (n <=? 102) then Some (n - 87)
  else if (65 <=? n) && (n <=? 70) then Some (n - 55)
  else None.

Fixpoint hexDigits (s : string) (acc cnt : Z) : Z * Z :=
  match s with
  | String c r =>
      match hexValue c with
      | Some v => hexDigits r (16 * acc + v) (cnt + 1)
      | None => (acc, cnt)
      end
  | EmptyString => (acc, cnt)
  end.

Definition parseInt (s : string) : number :=
  let '(neg, t) := signOf (trimStart s) in
  let '(mathInt, cnt) :=
    match t with
    | String "0" (String x r) =>
        if (code x =? 120) || (code x =? 88) then hexDigits r 0 0
        else let '(v, n, _) := digits t 0 0 in (v, n)
    | _ => let '(v, n, _) := digits t 0 0 in (v, n)
    end in
  if cnt =? 0 then NaN
  else if mathInt =? 0 then S754_zero neg
  else binary_normalize prec emax (cond_Zopp neg mathInt) 0 false.



End JS.

Notation "a ?. f" := (JS.chain a f) (at level 50, left associativity).

(* ===================================================================== *)
(** * Provider payloads *)
(* ===================================================================== *)

(** The order, payment and refund records returned by the commerce SDK,
    with exactly the fields the service reads.  The service receives them
    untyped and guards every access with optional chaining, so every field
    is optional; the fields it copies or compares are strings. *)
Module Wix.

Module Price.
Record t : Type := { amount : option string; currency : option string }.
End Price.

Module RegularPaymentDetails.
Record t : Type := {
  status : option string;
  paymentMethod : option string;
  providerTransactionId : option string
}.
End RegularPaymentDetails.

Module Payment.
Record t : Type := {
  _id : option string;
  amount : option Price.t;
  regularPaymentDetails : option RegularPaymentDetails.t;
  _createdDate : option string
}.
End Payment.

Module RefundSummary.
Record t : Type := { refunded : option Price.t }.
End RefundSummary.

Module RefundTransaction.
Record t : Type := { providerRefundId : option string }.
End RefundTransaction.

Module Refund.
Record t : Type := {
  _id : option string;
  summary : option RefundSummary.t;
  transactions : option (list RefundTransaction.t);
  _createdDate : option string
}.
End Refund.

Module ContactDetails.
Record t : Type := { firstName : option string; lastName : option string }.
End ContactDetails.

Module BillingInfo.
Record t : Type := { contactDetails : option ContactDetails.t }.
End BillingInfo.

Module BuyerInfo.
Record t : Type := {
  email : option string;
  firstName : option string;
  lastName : option string
}.
End BuyerInfo.

Module Order.
Record t : Type := {
  _id : option string;
  number : option string;
  currency : option string;
  buyerInfo : option BuyerInfo.t;
  billingInfo : option BillingInfo.t
}.
End Order.

Module OrderTransactions.
Record t : Type := {
  orderId : option string;
  payments : option (list Payment.t);
  refunds : option (list Refund.t)
}.
End OrderTransactions.

Module SearchOrdersResponse.
Record t : Type := { orders : option (list Order.t) }.
End SearchOrdersResponse.

Module ListTransactionsResponse.
Record t : Type := { orderTransactions : option (list OrderTransactions.t) }.
End ListTransactionsResponse.

End Wix.

(* ===================================================================== *)
(** * Exceptions *)
(* ===================================================================== *)

(** The outcome of a call that may throw (an awaited promise that may
    reject): a value, or the thrown error. *)
Inductive Result (A : Type) : Type :=
  | Ok (a : A)
  | Throw (e : string).
Arguments Ok {A} a.
Arguments Throw {A} e.

Definition bindR {A B : Type} (r : Result A) (k : A -> Result B) : Result B :=
  match r with
  | Ok a => k a
  | Throw e => Throw e
  end.

(** [try { body } catch (e) { handler e }]. *)
Definition tryCatch {A : Type} (body : Result A) (handler : string -> Result A)
  : Result A :=
  match body with
  | Ok a => Ok a
  | Throw e => handler e
  end.

Notation "'let*' x ':=' r 'in' k" := (bindR r (fun x => k))
  (at level 10, x name, r at level 100, k at level 200).

(** The [@wix/ecom] module as one call of the service sees it: the outcome
    of [orders.searchOrders] with the fixed paging argument, and of
    [orderTransactions.listTransactionsForMultipleOrders] on a list of
    order ids. *)
Module Ecom.
Record t : Type := {
  searchOrders : Result Wix.SearchOrdersResponse.t;
  listTransactionsForMultipleOrders :
    list string -> Result Wix.ListTransactionsResponse.t
}.
End Ecom.

(** The dynamic [import('@wix/ecom')] either yields the module or throws. *)
Definition Provider : Type := Result Ecom.t.

(* ===================================================================== *)
(** * services/transactionService.ts *)
(* ===================================================================== *)

(** The five literals of [Transaction['status']]. *)
Inductive Status : Type := APPROVED | PENDING | DECLINED | REFUNDED | CANCELLED.

Definition statusString (s : Status) : string :=
  match s with
  | APPROVED => "APPROVED"
  | PENDING => "PENDING"
  | DECLINED => "DECLINED"
  | REFUNDED => "REFUNDED"
  | CANCELLED => "CANCELLED"
  end.

Module Transaction.
Record t : Type := {
  id : string;
  amount : JS.number;
  currency : string;
  status : Status;
  paymentMethod : string;
  customerName : option string;
  customerEmail : option string;
  createdDate : string;
  description : option string;
  provider : option string;
  providerTransactionId : option string;
  type : option string
}.
End Transaction.

Module TransactionFilters.
Record t : Type := {
  status : option string;
  dateRange : option JS.number;
  searchQuery : option string;
  limit : option JS.number;
  offset : option JS.number
}.
End TransactionFilters.

Module TransactionMetrics.
Record t : Type := {
  totalApproved : JS.number;
  totalPending : JS.number;
  totalDeclined : JS.number;
  totalRefunded : JS.number;
  totalTransactions : JS.number;
  totalRevenue : JS.number
}.
End TransactionMetrics.

(** The resolved value of [fetchTransactions] and [refreshTransactions]. *)
Module FetchResult.
Record t : Type := { data : list Transaction.t; usingMockData : bool }.
End FetchResult.

Module TransactionService.

Import Wix.

(** [getMockTransactions] *)
Definition getMockTransactions : list Transaction.t :=
  [ {| Transaction.id := "TXN-001";
       Transaction.amount := JS.decimal 25000 (-2);
       Transaction.currency := "EUR";
       Transaction.status := APPROVED;
       Transaction.paymentMethod := "Credit Card";
       Transaction.customerName := Some "John Doe";
       Transaction.customerEmail := Some "john.doe@example.com";
       Transaction.createdDate := "2025-01-15T10:30:00Z";
       Transaction.description := Some "Invoice #INV-001 payment";
       Transaction.provider := None;
       Transaction.providerTransactionId := None;
       Transaction.type := None |};
    {| Transaction.id := "TXN-002";
       Transaction.amount := JS.decimal 18050 (-2);
       Transaction.currency := "EUR";
       Transaction.status := APPROVED;
       Transaction.paymentMethod := "PayPal";
       Transaction.customerName := Some "Jane Smith";
       Transaction.customerEmail := Some "jane.smith@example.com";
       Transaction.createdDate := "2025-01-14T14:22:00Z";
       Transaction.description := Some "Invoice #INV-002 payment";
       Transaction.provider := None;
       Transaction.providerTransactionId := None;
       Transaction.type := None |};
    {| Transaction.id := "TXN-003";
       Transaction.amount := JS.decimal 32075 (-2);
       Transaction.currency := "EUR";
       Transaction.status := PENDING;
       Transaction.paymentMethod := "Bank Transfer";
       Transaction.customerName := Some "Mike Johnson";
       Transaction.customerEmail := Some "mike.johnson@example.com";
       Transaction.createdDate := "2025-01-13T09:45:00Z";
       Transaction.description := Some "Invoice #INV-003 payment";
       Transaction.provider := None;
       Transaction.providerTransactionId := None;
       Transaction.type := None |};
    {| Transaction.id := "TXN-004";
       Transaction.amount := JS.decimal 9500 (-2);
       Transaction.currency := "EUR";
       Transaction.status := DECLINED;
       Transaction.paymentMethod := "Credit Card";
       Transaction.customerName := Some "Sarah Wilson";
       Transaction.customerEmail := Some "sarah.wilson@example.com";
       Transaction.createdDate := "2025-01-12T16:10:00Z";
       Transaction.description := Some "Invoice #INV-004 payment";
       Transaction.provider := None;
       Transaction.providerTransactionId := None;
       Transaction.type := None |};
    {| Transaction.id := "TXN-005";
       Transaction.amount := JS.decimal 45025 (-2);
       Transaction.currency := "EUR";
       Transaction.status := REFUNDED;
       Transaction.paymentMethod := "Credit Card";
       Transaction.customerName := Some "David Brown";
       Transaction.customerEmail := Some "david.brown@example.com";
       Transaction.createdDate := "2025-01-11T11:30:00Z";
       Transaction.description := Some "Invoice #INV-005 payment refund";
       Transaction.provider := None;
       Transaction.providerTransactionId := None;
       Transaction.type := None |} ].

(** [getCustomerNameFromOrder] *)
Definition getCustomerNameFromOrder (order : option Order.t) : string :=
  let fromBuyer :=
    match order ?. Order.buyerInfo with
    | Some b =>
        if JS.truthy (BuyerInfo.firstName b) && JS.truthy (BuyerInfo.lastName b)
        then JS.show (BuyerInfo.firstName b) +:+ " " +:+ JS.show (BuyerInfo.lastName b)
        else "Customer"
    | None => "Customer"
    end in
  match order ?. Order.billingInfo ?. BillingInfo.contactDetails with
  | Some contact =>
      if JS.truthy (ContactDetails.firstName contact)
         && JS.truthy (ContactDetails.lastName contact)
      then JS.show (ContactDetails.firstName contact) +:+ " "
           +:+ JS.show (ContactDetails.lastName contact)
      else fromBuyer
  | None => fromBuyer
  end.

(** The three provider fields the transformers branch on:
    [payment.regularPaymentDetails?.status], [payment.amount?.amount] and
    [refund.summary?.refunded?.amount]. *)
Definition providerStatus (payment : Payment.t) : option string :=
  Payment.regularPaymentDetails payment ?. RegularPaymentDetails.status.

Definition paymentAmount (payment : Payment.t) : option string :=
  Payment.amount payment ?. Price.amount.

Definition refundAmount (refund : Refund.t) : option string :=
  Refund.summary refund ?. RefundSummary.refunded ?. Price.amount.

(** The status chain of [transformPaymentToTransaction]: the default
    [PENDING] is kept when the provider status is absent, empty or none of
    the eight known values. *)
Definition paymentStatusOf (payment : Payment.t) : Status :=
  match providerStatus payment with
  | Some paymentStatus =>
      if String.eqb paymentStatus "" then PENDING
      else if String.eqb paymentStatus "APPROVED"
              || String.eqb paymentStatus "AUTHORIZED" then APPROVED
      else if String.eqb paymentStatus "DECLINED"
              || String.eqb paymentStatus "CANCELED" then DECLINED
      else if String.eqb paymentStatus "REFUNDED"
              || String.eqb paymentStatus "PARTIALLY_REFUNDED" then REFUNDED
      else if String.eqb paymentStatus "PENDING"
              || String.eqb paymentStatus "PENDING_MERCHANT" then PENDING
      else PENDING
  | None => PENDING
  end.

(** The order reference of a description: [order?.number || order?._id]. *)
Definition orderRef (order : option Order.t) : string :=
  if JS.truthy (order ?. Order.number) then JS.show (order ?. Order.number)
  else JS.show (order ?. Order._id).

(** [transformPaymentToTransaction] *)
Definition transformPaymentToTransaction (env : JS.Env)
    (payment : Payment.t) (order : option Order.t) : Transaction.t :=
  let amount := JS.parseFloat (JS.orElse (paymentAmount payment) "0") in
  let currency :=
    JS.orElse (Payment.amount payment ?. Price.currency)
      (JS.orElse (order ?. Order.currency) "EUR") in
  let details := Payment.regularPaymentDetails payment in
  {| Transaction.id :=
       JS.orElse (Payment._id payment) ("TXN-" +:+ JS.showZ (JS.now env));
     Transaction.amount := amount;
     Transaction.currency := currency;
     Transaction.status := paymentStatusOf payment;
     Transaction.paymentMethod :=
       JS.orElse (details ?. RegularPaymentDetails.paymentMethod) "Unknown";
     Transaction.customerName := Some (getCustomerNameFromOrder order);
     Transaction.customerEmail :=
       Some (JS.orElse (order ?. Order.buyerInfo ?. BuyerInfo.email)
                       "customer@example.com");
     Transaction.createdDate :=
       JS.orElse (Payment._createdDate payment) (JS.toISOString (JS.now env));
     Transaction.description :=
       Some ("Order #" +:+ orderRef order +:+ " payment");
     Transaction.provider := details ?. RegularPaymentDetails.paymentMethod;
     Transaction.providerTransactionId :=
       details ?. RegularPaymentDetails.providerTransactionId;
     Transaction.type := Some "PAYMENT" |}.

(** [transformRefundToTransaction] *)
Definition transformRefundToTransaction (env : JS.Env)
    (refund : Refund.t) (order : option Order.t) : Transaction.t :=
  let refunded := Refund.summary refund ?. RefundSummary.refunded in
  let amount := JS.parseFloat (JS.orElse (refundAmount refund) "0") in
  let currency :=
    JS.orElse (refunded ?. Price.currency)
      (JS.orElse (order ?. Order.currency) "EUR") in
  {| Transaction.id :=
       JS.orElse (Refund._id refund) ("REF-" +:+ JS.showZ (JS.now env));
     Transaction.amount := amount;
     Transaction.currency := currency;
     Transaction.status := REFUNDED;
     Transaction.paymentMethod := "Refund";
     Transaction.customerName := Some (getCustomerNameFromOrder order);
     Transaction.customerEmail :=
       Some (JS.orElse (order ?. Order.buyerInfo ?. BuyerInfo.email)
                       "customer@example.com");
     Transaction.createdDate :=
       JS.orElse (Refund._createdDate refund) (JS.toISOString (JS.now env));
     Transaction.description :=
       Some ("Order #" +:+ orderRef order +:+ " refund");
     Transaction.provider := Some "Refund";
     Transaction.providerTransactionId :=
       Refund.transactions refund ?. head ?. RefundTransaction.providerRefundId;
     Transaction.type := Some "REFUND" |}.

(** The status test applied to each transformed record inside
    [fetchTransactions]:
    [!filters?.status || filters.status === 'all' ||
     txData.status.toLowerCase() === filters.status.toLowerCase()]. *)
Definition passesStatus (filters : option TransactionFilters.t)
    (txData : Transaction.t) : bool :=
  let status := filters ?. TransactionFilters.status in
  negb (JS.truthy status)
  || String.eqb (JS.show status) "all"
  || String.eqb (JS.toLowerCase (statusString (Transaction.status txData)))
                (JS.toLowerCase (JS.show status)).

(** The loop over [transactionsResult.orderTransactions]: for each entry,
    its payments and then its refunds, each transformed against the order
    found by id and pushed when it passes the status test. *)
Definition collectTransactions (env : JS.Env)
    (filters : option TransactionFilters.t) (orders : list Order.t)
    (orderTransactions : list OrderTransactions.t) : list Transaction.t :=
  flat_map (fun orderTx =>
    let order :=
      List.find (fun o => JS.strictEq (Order._id o)
                                      (OrderTransactions.orderId orderTx))
                orders in
    List.app
      (List.filter (passesStatus filters)
         (List.map (fun payment => transformPaymentToTransaction env payment order)
                   (default [] (OrderTransactions.payments orderTx))))
      (List.filter (passesStatus filters)
         (List.map (fun refund => transformRefundToTransaction env refund order)
                   (default [] (OrderTransactions.refunds orderTx)))))
  orderTransactions.

(** The inner [try] block of [fetchTransactions]. *)
Definition fetchFromSdk (env : JS.Env) (provider : Provider)
    (filters : option TransactionFilters.t) : Result FetchResult.t :=
  let* ecom := provider in
  let* ordersResult :=
    tryCatch (Ecom.searchOrders ecom) (fun basicError => Throw basicError) in
  match SearchOrdersResponse.orders ordersResult with
  | Some ((_ :: _) as orders) =>
      let orderIds := omap Order._id orders in
      let* transactionsResult :=
        Ecom.listTransactionsForMultipleOrders ecom orderIds in
      let transactionData :=
        match ListTransactionsResponse.orderTransactions transactionsResult with
        | Some orderTransactions =>
            collectTransactions env filters orders orderTransactions
        | None => []
        end in
      Ok {| FetchResult.data := transactionData;
            FetchResult.usingMockData := false |}
  | _ => Throw "No orders found"
  end.

(** [fetchTransactions] *)
Definition fetchTransactions (env : JS.Env) (provider : Provider)
    (filters : option TransactionFilters.t) : Result FetchResult.t :=
  tryCatch
    (tryCatch (fetchFromSdk env provider filters)
              (fun sdkError => Throw sdkError))
    (fun error =>
       Ok {| FetchResult.data := getMockTransactions;
             FetchResult.usingMockData := true |}).

(** [refreshTransactions] *)
Definition refreshTransactions (env : JS.Env) (provider : Provider)
  : Result FetchResult.t :=
  tryCatch
    (fetchTransactions env provider
       (Some {| TransactionFilters.status := None;
                TransactionFilters.dateRange := Some (JS.ofZ 7);
                TransactionFilters.searchQuery := None;
                TransactionFilters.limit := None;
                TransactionFilters.offset := None |}))
    (fun error =>
       Ok {| FetchResult.data := getMockTransactions;
             FetchResult.usingMockData := true |}).

(** One iteration of the [forEach] of [calculateMetrics]: the update of
    the accumulator object by one transaction. *)
Definition accumulate (metrics : TransactionMetrics.t)
    (transaction : Transaction.t) : TransactionMetrics.t :=
  let amount := Transaction.amount transaction in
  match Transaction.status transaction with
  | APPROVED =>
      {| TransactionMetrics.totalApproved :=
           JS.add (TransactionMetrics.totalApproved metrics) amount;
         TransactionMetrics.totalPending := TransactionMetrics.totalPending metrics;
         TransactionMetrics.totalDeclined := TransactionMetrics.totalDeclined metrics;
         TransactionMetrics.totalRefunded := TransactionMetrics.totalRefunded metrics;
         TransactionMetrics.totalTransactions :=
           TransactionMetrics.totalTransactions metrics;
         TransactionMetrics.totalRevenue :=
           JS.add (TransactionMetrics.totalRevenue metrics) amount |}
  | PENDING =>
      {| TransactionMetrics.totalApproved := TransactionMetrics.totalApproved metrics;
         TransactionMetrics.totalPending :=
           JS.add (TransactionMetrics.totalPending metrics) amount;
         TransactionMetrics.totalDeclined := TransactionMetrics.totalDeclined metrics;
         TransactionMetrics.totalRefunded := TransactionMetrics.totalRefunded metrics;
         TransactionMetrics.totalTransactions :=
           TransactionMetrics.totalTransactions metrics;
         TransactionMetrics.totalRevenue := TransactionMetrics.totalRevenue metrics |}
  | DECLINED =>
      {| TransactionMetrics.totalApproved := TransactionMetrics.totalApproved metrics;
         TransactionMetrics.totalPending := TransactionMetrics.totalPending metrics;
         TransactionMetrics.totalDeclined :=
           JS.add (TransactionMetrics.totalDeclined metrics) amount;
         TransactionMetrics.totalRefunded := TransactionMetrics.totalRefunded metrics;
         TransactionMetrics.totalTransactions :=
           TransactionMetrics.totalTransactions metrics;
         TransactionMetrics.totalRevenue := TransactionMetrics.totalRevenue metrics |}
  | REFUNDED =>
      {| TransactionMetrics.totalApproved := TransactionMetrics.totalApproved metrics;
         TransactionMetrics.totalPending := TransactionMetrics.totalPending metrics;
         TransactionMetrics.totalDeclined := TransactionMetrics.totalDeclined metrics;
         TransactionMetrics.totalRefunded :=
           JS.add (TransactionMetrics.totalRefunded metrics) amount;
         TransactionMetrics.totalTransactions :=
           TransactionMetrics.totalTransactions metrics;
         TransactionMetrics.totalRevenue :=
           JS.sub (TransactionMetrics.totalRevenue metrics) amount |}
  | CANCELLED => metrics
  end.

(** [calculateMetrics] *)
Definition calculateMetrics (transactions : list Transaction.t)
  : TransactionMetrics.t :=
  fold_left accumulate transactions
    {| TransactionMetrics.totalApproved := JS.zero;
       TransactionMetrics.totalPending := JS.zero;
       TransactionMetrics.totalDeclined := JS.zero;
       TransactionMetrics.totalRefunded := JS.zero;
       TransactionMetrics.totalTransactions :=
         JS.ofZ (Z.of_nat (length transactions));
       TransactionMetrics.totalRevenue := JS.zero |}.

(** The three predicates of [applyFilters]. *)
Definition matchesStatus (status : string) (transaction : Transaction.t) : bool :=
  String.eqb (JS.toLowerCase (statusString (Transaction.status transaction)))
             (JS.toLowerCase status).

Definition fieldIncludes (field : option string) (query : string) : bool :=
  match field with
  | Some s => JS.includes (JS.toLowerCase s) query
  | None => false
  end.

Definition matchesQuery (query : string) (transaction : Transaction.t) : bool :=
  fieldIncludes (Transaction.customerName transaction) query
  || fieldIncludes (Transaction.customerEmail transaction) query
  || JS.includes (JS.toLowerCase (Transaction.id transaction)) query
  || fieldIncludes (Transaction.description transaction) query.

(** The cutoff of the date-range branch: [new Date()] moved by
    [setDate(getDate() - dateRange)]. *)
Definition cutoffDate (env : JS.Env) (dateRange : JS.number) : JS.timeValue :=
  let cutoffDate := JS.newDate env in
  JS.setDate env cutoffDate (JS.sub (JS.getDate env cutoffDate) dateRange).

Definition onOrAfter (env : JS.Env) (cutoff : JS.timeValue)
    (transaction : Transaction.t) : bool :=
  let transactionDate := JS.newDateOf env (Transaction.createdDate transaction) in
  JS.dateGe transactionDate cutoff.

(** The three guarded steps of [applyFilters].  Each yields the callback
    handed to [Array.prototype.filter] when its [if] is taken, and [None]
    when the field is falsy and the step is skipped. *)
Definition statusStep (filters : TransactionFilters.t)
  : option (Transaction.t -> bool) :=
  match TransactionFilters.status filters with
  | Some status =>
      if negb (String.eqb status "") && negb (String.eqb status "all")
      then Some (matchesStatus status)
      else None
  | None => None
  end.

Definition searchStep (filters : TransactionFilters.t)
  : option (Transaction.t -> bool) :=
  match TransactionFilters.searchQuery filters with
  | Some searchQuery =>
      if negb (String.eqb searchQuery "")
      then Some (matchesQuery (JS.toLowerCase searchQuery))
      else None
  | None => None
  end.

Definition dateStep (env : JS.Env) (filters : TransactionFilters.t)
  : option (Transaction.t -> bool) :=
  match TransactionFilters.dateRange filters with
  | Some dateRange =>
      if JS.truthy_number dateRange
      then Some (onOrAfter env (cutoffDate env dateRange))
      else None
  | None => None
  end.

(** [filtered = filtered.filter(callback)] when the step is taken. *)
Definition filterWhen (step : option (Transaction.t -> bool))
    (filtered : list Transaction.t) : list Transaction.t :=
  match step with
  | Some callback => List.filter callback filtered
  | None => filtered
  end.

(** [applyFilters], as a function from the content of the input array to
    the content of the returned array. *)
Definition applyFilters (env : JS.Env) (transactions : list Transaction.t)
    (filters : option TransactionFilters.t) : list Transaction.t :=
  match filters with
  | None => transactions
  | Some filters =>
      filterWhen (dateStep env filters)
        (filterWhen (searchStep filters)
           (filterWhen (statusStep filters) transactions))
  end.

(** The same function on array references.  Arrays live in a store; the
    call receives the reference of [transactions] and returns the reference
    of its result.  Without a filter object the argument itself is
    returned; otherwise the spread copy and every [filter] call allocate a
    fresh array and nothing is written to an existing one. *)
Definition alloc (content : list Transaction.t)
    (store : gmap nat (list Transaction.t))
  : nat * gmap nat (list Transaction.t) :=
  let r := fresh (dom store) in (r, <[r := content]> store).

Definition filterWhenRef (step : option (Transaction.t -> bool))
    (state : nat * gmap nat (list Transaction.t))
  : nat * gmap nat (list Transaction.t) :=
  match step with
  | Some callback =>
      alloc (List.filter callback (default [] (snd state !! fst state)))
            (snd state)
  | None => state
  end.

Definition applyFiltersRef (env : JS.Env)
    (store : gmap nat (list Transaction.t)) (transactions : nat)
    (filters : option TransactionFilters.t)
  : nat * gmap nat (list Transaction.t) :=
  match filters with
  | None => (transactions, store)
  | Some filters =>
      let filtered := alloc (default [] (store !! transactions)) store in
      filterWhenRef (dateStep env filters)
        (filterWhenRef (searchStep filters)
           (filterWhenRef (statusStep filters) filtered))
  end.

End TransactionService.

(* ===================================================================== *)
(** * dashboard/pages/transactionsPage.tsx: the filter controls *)
(* ===================================================================== *)

(** The part of the dashboard component that calls the filter engine: the
    option lists of the two dropdowns and the [applyFilters] closure, which
    builds the filter object from the search box, the status dropdown and
    the time-period dropdown and hands it to the service.  The value given
    to [setFilteredTransactions] is the result. *)
Module Dashboard.

Definition TRANSACTION_STATUS_OPTIONS : list (string * string) :=
  [ ("all", "All Transactions"); ("approved", "Approved");
    ("pending", "Pending"); ("declined", "Declined");
    ("refunded", "Refunded"); ("cancelled", "Cancelled") ].

Definition TIME_PERIOD_OPTIONS : list (string * string) :=
  [ ("7", "Last 7 days"); ("30", "Last 30 days");
    ("90", "Last 90 days"); ("365", "Last year") ].

(** [{ status: filterValue !== 'all' ? filterValue : undefined,
       searchQuery: searchValue || undefined,
       dateRange: parseInt(timePeriod) }] *)
Definition filtersOf (searchValue filterValue timePeriod : string)
  : TransactionFilters.t :=
  {| TransactionFilters.status :=
       if negb (String.eqb filterValue "all") then Some filterValue else None;
     TransactionFilters.dateRange := Some (JS.parseInt timePeriod);
     TransactionFilters.searchQuery :=
       if String.eqb searchValue "" then None else Some searchValue;
     TransactionFilters.limit := None;
     TransactionFilters.offset := None |}.

Definition applyFilters (env : JS.Env) (transactions : list Transaction.t)
    (searchValue filterValue timePeriod : string) : list Transaction.t :=
  TransactionService.applyFilters env transactions
    (Some (filtersOf searchValue filterValue timePeriod)).

End Dashboard.


(* ===================================================================== *)
(** * Integer view of a collection *)
(* ===================================================================== *)

(** For a collection whose amounts are whole multiples [f t] of one unit:
    the units falling into one status bucket, and the total magnitude of
    the collection. *)
Definition sameStatus (a b : Status) : bool :=
  match a, b with
  | APPROVED, APPROVED | PENDING, PENDING | DECLINED, DECLINED
  | REFUNDED, REFUNDED | CANCELLED, CANCELLED => true
  | _, _ => false
  end.

Definition sumBy (f : Transaction.t -> Z) (status : Status)
    (transactions : list Transaction.t) : Z :=
  fold_right (fun t acc =>
                if sameStatus (Transaction.status t) status then f t + acc else acc)
             0 transactions.

Definition magnitude (f : Transaction.t -> Z)
    (transactions : list Transaction.t) : Z :=
  fold_right (fun t acc => Z.abs (f t) + acc) 0 transactions.

(* ===================================================================== *)
(** * Views of a collection *)
(* ===================================================================== *)

(** The amounts of the transactions with a given status, in the order of
    the collection, and the left-to-right binary64 sum of a list of
    numbers starting from [+0]. *)
Definition amountsOf (status : Status) (transactions : list Transaction.t)
  : list JS.number :=
  List.map Transaction.amount
    (List.filter (fun t => sameStatus (Transaction.status t) status) transactions).

Definition sumNumbers (xs : list JS.number) : JS.number :=
  fold_left JS.add xs JS.zero.

(** The signed contributions to the revenue: [+amount] for APPROVED,
    [-amount] for REFUNDED, in the order of the collection. *)
Definition revenueOf (transactions : list Transaction.t) : JS.number :=
  fold_left (fun acc t =>
               match Transaction.status t with
               | APPROVED => JS.add acc (Transaction.amount t)
               | REFUNDED => JS.sub acc (Transaction.amount t)
               | _ => acc
               end)
            transactions JS.zero.

(** The conjunction of the callbacks of the steps a filter object
    activates. *)
Definition holds (step : option (Transaction.t -> bool)) (t : Transaction.t)
  : bool :=
  match step with
  | Some callback => callback t
  | None => true
  end.

Definition keeps (env : JS.Env) (filters : TransactionFilters.t)
    (t : Transaction.t) : bool :=
  holds (TransactionService.statusStep filters) t
  && holds (TransactionService.searchStep filters) t
  && holds (TransactionService.dateStep env filters) t.

(** A transaction whose displayed text fields are all present and
    non-empty, so that the table never falls back to ['N/A'] or
    ['No description']. *)
Definition filled (a : option string) : Prop :=
  exists s, a = Some s /\ s <> "".

Definition complete (t : Transaction.t) : Prop :=
  Transaction.id t <> ""
  /\ Transaction.currency t <> ""
  /\ Transaction.paymentMethod t <> ""
  /\ Transaction.createdDate t <> ""
  /\ filled (Transaction.customerName t)
  /\ filled (Transaction.customerEmail t)
  /\ filled (Transaction.description t).

(** A provider whose module loads, whose order search returns at least one
    order and whose transaction listing for those orders returns. *)
Definition Live (provider : Provider) : Prop :=
  exists ecom r o os tr,
    provider = Ok ecom
    /\ Ecom.searchOrders ecom = Ok r
    /\ Wix.SearchOrdersResponse.orders r = Some (o :: os)
    /\ Ecom.listTransactionsForMultipleOrders ecom
         (omap Wix.Order._id (o :: os)) = Ok tr.

(** What the ids of the two dropdowns stand for: the canonical status an
    id of the status dropdown selects ([None] for the sentinel), and the
    number of days of an id of the time-period dropdown. *)
Definition statusOptionMeaning : list (string * option Status) :=
  [ ("all", None); ("approved", Some APPROVED); ("pending", Some PENDING);
    ("declined", Some DECLINED); ("refunded", Some REFUNDED);
    ("cancelled", Some CANCELLED) ].

Definition timePeriodDays : list (string * Z) :=
  [ ("7", 7); ("30", 30); ("90", 90); ("365", 365) ].



(* ===================================================================== *)
(** * Sample inputs *)
(* ===================================================================== *)

Module Examples.

Import Wix.

(** 2025-01-15T10:30:00Z, the creation time of the newest synthetic
    record, used as the clock reading of the examples. *)
Definition clock : Z := 1736937000000.
Definition env : JS.Env := JS.utcEnv clock.

(** The filter object [{}]. *)
Definition noFilters : TransactionFilters.t :=
  {| TransactionFilters.status := None;
     TransactionFilters.dateRange := None;
     TransactionFilters.searchQuery := None;
     TransactionFilters.limit := None;
     TransactionFilters.offset := None |}.

(** [{ dateRange: n }] *)
Definition lastDays (n : JS.number) : TransactionFilters.t :=
  {| TransactionFilters.status := None;
     TransactionFilters.dateRange := Some n;
     TransactionFilters.searchQuery := None;
     TransactionFilters.limit := None;
     TransactionFilters.offset := None |}.

(** A transaction with the given status and amount. *)
Definition sampleTx (status : Status) (amount : JS.number) : Transaction.t :=
  {| Transaction.id := "TXN-S";
     Transaction.amount := amount;
     Transaction.currency := "EUR";
     Transaction.status := status;
     Transaction.paymentMethod := "Credit Card";
     Transaction.customerName := Some "John Doe";
     Transaction.customerEmail := Some "john.doe@example.com";
     Transaction.createdDate := "2025-01-15T10:30:00Z";
     Transaction.description := Some "Invoice #INV-001 payment";
     Transaction.provider := None;
     Transaction.providerTransactionId := None;
     Transaction.type := None |}.

(** A transaction created at the given time. *)
Definition datedTx (created : string) : Transaction.t :=
  {| Transaction.id := "TXN-D";
     Transaction.amount := JS.decimal 1000 (-2);
     Transaction.currency := "EUR";
     Transaction.status := APPROVED;
     Transaction.paymentMethod := "Credit Card";
     Transaction.customerName := Some "John Doe";
     Transaction.customerEmail := Some "john.doe@example.com";
     Transaction.createdDate := created;
     Transaction.description := Some "Invoice #INV-001 payment";
     Transaction.provider := None;
     Transaction.providerTransactionId := None;
     Transaction.type := None |}.

(** A zone that moves its clocks forward by one hour, from UTC+1 to UTC+2,
    at 2025-03-30T01:00:00Z (local times in the skipped hour are read with
    the earlier offset), and a clock reading twelve hours later,
    2025-03-30T13:00:00Z. *)
Definition springForward : Z := 1743296400000.

Definition dstEnv : JS.Env :=
  {| JS.now := springForward + 12 * 3600000;
     JS.LocalTZA := fun t isUTC =>
       if isUTC then (if t <? springForward then 3600000 else 7200000)
       else (if t <? springForward + 7200000 then 3600000 else 7200000);
     JS.DateParse := JS.isoParse |}.

(** A payment with the given amount string and provider status. *)
Definition samplePayment (amount status : option string) (created : string)
  : Payment.t :=
  {| Payment._id := Some "PAY-1";
     Payment.amount :=
       Some {| Price.amount := amount; Price.currency := Some "EUR" |};
     Payment.regularPaymentDetails :=
       Some {| RegularPaymentDetails.status := status;
               RegularPaymentDetails.paymentMethod := Some "CreditCard";
               RegularPaymentDetails.providerTransactionId := Some "P-77" |};
     Payment._createdDate := Some created |}.

Definition sampleRefund (amount : option string) : Refund.t :=
  {| Refund._id := Some "REF-1";
     Refund.summary :=
       Some {| RefundSummary.refunded :=
                 Some {| Price.amount := amount; Price.currency := Some "EUR" |} |};
     Refund.transactions := None;
     Refund._createdDate := Some "2025-01-14T08:00:00Z" |}.

Definition sampleOrder : Order.t :=
  {| Order._id := Some "ORD-1";
     Order.number := Some "1001";
     Order.currency := Some "EUR";
     Order.buyerInfo :=
       Some {| BuyerInfo.email := Some "ann@example.com";
               BuyerInfo.firstName := Some "Ann";
               BuyerInfo.lastName := Some "Lee" |};
     Order.billingInfo := None |}.

(** A provider that answers with one order carrying one approved payment
    created on 2024-12-01, 45 days before [clock]. *)
Definition oldPayment : Payment.t :=
  samplePayment (Some "100.00") (Some "APPROVED") "2024-12-01T09:00:00Z".

Definition liveProvider : Provider :=
  Ok {| Ecom.searchOrders :=
          Ok {| SearchOrdersResponse.orders := Some [sampleOrder] |};
        Ecom.listTransactionsForMultipleOrders := fun _ =>
          Ok {| ListTransactionsResponse.orderTransactions :=
                  Some [ {| OrderTransactions.orderId := Some "ORD-1";
                            OrderTransactions.payments := Some [oldPayment];
                            OrderTransactions.refunds := None |} ] |} |}.

(** Providers showing the three failures. *)
Definition searchThrows : Ecom.t :=
  {| Ecom.searchOrders := Throw "Network Error";
     Ecom.listTransactionsForMultipleOrders := fun _ =>
       Ok {| ListTransactionsResponse.orderTransactions := None |} |}.

Definition listingThrows : Ecom.t :=
  {| Ecom.searchOrders :=
       Ok {| SearchOrdersResponse.orders := Some [sampleOrder] |};
     Ecom.listTransactionsForMultipleOrders := fun _ => Throw "Forbidden" |}.

Definition noOrders : Ecom.t :=
  {| Ecom.searchOrders := Ok {| SearchOrdersResponse.orders := Some [] |};
     Ecom.listTransactionsForMultipleOrders := fun _ =>
       Ok {| ListTransactionsResponse.orderTransactions := None |} |}.

End Examples.

(** The provider failures the fallback is specified for: the order search
    throws, the order search returns no order, or the transaction listing
    throws. *)
Inductive ProviderFailure : Provider -> Prop :=
  | SearchThrows (ecom : Ecom.t) (e : string) :
      Ecom.searchOrders ecom = Throw e ->
      ProviderFailure (Ok ecom)
  | SearchEmpty (ecom : Ecom.t) (r : Wix.SearchOrdersResponse.t) :
      Ecom.searchOrders ecom = Ok r ->
      Wix.SearchOrdersResponse.orders r = Some [] ->
      ProviderFailure (Ok ecom)
  | ListingThrows (ecom : Ecom.t) (r : Wix.SearchOrdersResponse.t)
      (orders : list Wix.Order.t) (e : string) :
      Ecom.searchOrders ecom = Ok r ->
      Wix.SearchOrdersResponse.orders r = Some orders ->
      orders <> [] ->
      Ecom.listTransactionsForMultipleOrders ecom (omap Wix.Order._id orders)
        = Throw e ->
      ProviderFailure (Ok ecom).

(* ===================================================================== *)
(** * Exact binary64 arithmetic on multiples of a power of two *)
(* ===================================================================== *)

Section Binary64.
Import JS.

Lemma digits2_size (p : positive) : digits2_pos p = Pos.size p.
Proof. induction p; simpl; congruence. Qed.

Lemma Zdigits_log2 (p : positive) : Zpos (digits2_pos p) = Z.log2 (Zpos p) + 1.
Proof.
  rewrite digits2_size. destruct p; simpl; try lia.
Qed.

Lemma iter_pos_iter {A : Type} (f : A -> A) (n : positive) :
  forall x, SpecFloat.iter_pos f n x = Pos.iter f x n.
Proof.
  induction n as [n IHn|n IHn|]; intros x; simpl; rewrite ?IHn; try reflexivity.
  now rewrite !Pos.iter_swap.
Qed.

Lemma iter_xO (p n : positive) : Zpos (Pos.iter xO p n) = Zpos p * 2 ^ Zpos n.
Proof.
  induction n using Pos.peano_ind.
  - simpl. lia.
  - rewrite Pos.iter_succ, Pos2Z.inj_xO, IHn, Pos2Z.inj_succ, Z.pow_succ_r by lia. lia.
Qed.

Lemma shr_exact (q n : positive) :
  SpecFloat.iter_pos shr_1 n {| shr_m := Zpos (Pos.iter xO q n); shr_r := false; shr_s := false |}
  = {| shr_m := Zpos q; shr_r := false; shr_s := false |}.
Proof.
  rewrite iter_pos_iter.
  induction n using Pos.peano_ind.
  - reflexivity.
  - rewrite Pos.iter_succ_r. rewrite Pos.iter_succ. simpl. exact IHn.
Qed.

Lemma fexp_eq (e : Z) : fexp prec emax e = Z.max (e - 53) (-1074).
Proof. reflexivity. Qed.

Lemma shl_align_le (m : positive) (e e' : Z) :
  e' <= e -> shl_align m e e' = (Z.to_pos (Zpos m * 2 ^ (e - e')), e').
Proof.
  intros Hle. unfold shl_align.
  destruct (e' - e) as [|d|d] eqn:Hd; try lia.
  - replace (e - e') with 0 by lia. replace e' with e by lia.
    rewrite Z.pow_0_r, Z.mul_1_r. reflexivity.
  - replace (e - e') with (Zpos d) by lia.
    rewrite <- iter_xO. reflexivity.
Qed.

Lemma digits_shift (p : positive) (k : Z) :
  0 <= k ->
  Zpos (digits2_pos (Z.to_pos (Zpos p * 2 ^ k))) = Zpos (digits2_pos p) + k.
Proof.
  intros Hk. rewrite !Zdigits_log2.
  assert (0 < 2 ^ k) by (apply Z.pow_pos_nonneg; lia).
  rewrite Z2Pos.id by lia.
  rewrite Z.log2_mul_pow2 by lia. lia.
Qed.

(** A mantissa that already sits at its canonical exponent is returned as
    it is. *)
Lemma shr_fexp_canonical (q : positive) (e : Z) :
  fexp prec emax (Zpos (digits2_pos q) + e) = e ->
  shr_fexp prec emax (Zpos q) e loc_Exact
  = ({| shr_m := Zpos q; shr_r := false; shr_s := false |}, e).
Proof.
  intros Hc. unfold shr_fexp. simpl Zdigits2. rewrite Hc, Z.sub_diag.
  reflexivity.
Qed.

Lemma binary_round_aux_canonical (s : bool) (q : positive) (e : Z) :
  fexp prec emax (Zpos (digits2_pos q) + e) = e ->
  e <= emax - prec ->
  binary_round_aux prec emax s (Zpos q) e loc_Exact = S754_finite s q e.
Proof.
  intros Hc Hle. unfold binary_round_aux.
  rewrite (shr_fexp_canonical q e Hc). simpl shr_m. simpl loc_of_shr_record.
  simpl round_nearest_even.
  rewrite (shr_fexp_canonical q e Hc). simpl shr_m.
  destruct (Z.leb_spec e (emax - prec)); [reflexivity | lia].
Qed.

(** Rounding a mantissa that lies at or above its canonical exponent only
    shifts it left. *)
Lemma binary_round_up (s : bool) (p : positive) (e : Z) :
  let e' := fexp prec emax (Zpos (digits2_pos p) + e) in
  e' <= e -> e' <= emax - prec ->
  binary_round prec emax s p e
  = S754_finite s (Z.to_pos (Zpos p * 2 ^ (e - e'))) e'.
Proof.
  intros e' Hle Hmax. unfold binary_round. fold e'.
  rewrite (shl_align_le p e e' Hle).
  apply binary_round_aux_canonical; [|exact Hmax].
  rewrite digits_shift by lia.
  replace (Zpos (digits2_pos p) + (e - e') + e') with (Zpos (digits2_pos p) + e) by lia.
  reflexivity.
Qed.

(** Rounding a mantissa whose low bits below the canonical exponent are
    all zero drops exactly those bits. *)
Lemma binary_round_down (s : bool) (q k : positive) (e : Z) :
  let e' := e + Zpos k in
  fexp prec emax (Zpos (digits2_pos q) + e') = e' ->
  e' <= emax - prec ->
  binary_round prec emax s (Pos.iter xO q k) e = S754_finite s q e'.
Proof.
  intros e' Hc Hmax.
  assert (Hd : Zpos (digits2_pos (Pos.iter xO q k)) = Zpos (digits2_pos q) + Zpos k).
  { rewrite <- (digits_shift q (Zpos k)) by lia. rewrite <- iter_xO. reflexivity. }
  assert (Hf : fexp prec emax (Zpos (digits2_pos (Pos.iter xO q k)) + e) = e').
  { rewrite Hd.
    replace (Zpos (digits2_pos q) + Zpos k + e)
      with (Zpos (digits2_pos q) + e') by (unfold e'; lia).
    exact Hc. }
  unfold binary_round. rewrite Hf.
  unfold shl_align. replace (e' - e) with (Zpos k) by (unfold e'; lia).
  unfold binary_round_aux.
  unfold shr_fexp at 1. simpl Zdigits2. rewrite Hf.
  replace (e' - e) with (Zpos k) by (unfold e'; lia).
  unfold shr, shr_record_of_loc. rewrite shr_exact. fold e'.
  simpl shr_m. simpl loc_of_shr_record. simpl round_nearest_even.
  rewrite (shr_fexp_canonical q e' Hc). simpl shr_m.
  destruct (Z.leb_spec e' (emax - prec)); [reflexivity | lia].
Qed.

Lemma expOf_bounds (n e0 : Z) :
  -1074 <= e0 <= 971 -> Z.abs n < 2 ^ 53 ->
  -1074 <= expOf n e0 <= e0.
Proof.
  intros He Hn. unfold expOf. rewrite fexp_eq.
  assert (Z.log2 (Z.abs n) < 53).
  { destruct (Z.eq_dec n 0) as [->|Hz]; [simpl; lia|].
    apply Z.log2_lt_pow2; lia. }
  lia.
Qed.

Lemma round_exact (s : bool) (p : positive) (e c e0 : Z) :
  -1074 <= e0 <= 971 -> Z.abs c < 2 ^ 53 -> c <> 0 ->
  e <= e0 ->
  Zpos p = Z.abs c * 2 ^ (e0 - e) ->
  binary_round prec emax s p e
  = S754_finite s (Z.to_pos (Z.abs c * 2 ^ (e0 - expOf c e0))) (expOf c e0).
Proof.
  intros He Hc Hnz Hle Hp.
  pose proof (expOf_bounds c e0 He Hc) as HE.
  assert (Hpow : forall k, 0 <= k -> 0 < 2 ^ k) by (intros; apply Z.pow_pos_nonneg; lia).
  assert (Hd : Zpos (digits2_pos p) + e = Z.log2 (Z.abs c) + 1 + e0).
  { rewrite Zdigits_log2, Hp, Z.log2_mul_pow2 by lia. lia. }
  assert (Hf : fexp prec emax (Zpos (digits2_pos p) + e) = expOf c e0).
  { rewrite Hd. reflexivity. }
  destruct (Z_le_gt_dec (expOf c e0) e) as [Hup|Hdown].
  - pose proof (binary_round_up s p e) as H. simpl in H. rewrite Hf in H.
    rewrite H by (unfold emax, prec; lia).
    f_equal. f_equal. rewrite Hp, <- Z.mul_assoc, <- Z.pow_add_r by lia.
    f_equal. f_equal. lia.
  - set (E := expOf c e0) in *.
    set (q := Z.to_pos (Z.abs c * 2 ^ (e0 - E))).
    assert (Hq : Zpos q = Z.abs c * 2 ^ (e0 - E)).
    { unfold q. rewrite Z2Pos.id; [reflexivity|].
      apply Z.mul_pos_pos; [lia | apply Hpow; lia]. }
    destruct (E - e) as [|k|k] eqn:Hk; try lia.
    assert (Hpk : p = Pos.iter xO q k).
    { apply Pos2Z.inj. rewrite iter_xO, Hq, Hp, <- Z.mul_assoc, <- Z.pow_add_r by lia.
      f_equal. f_equal. lia. }
    rewrite Hpk.
    pose proof (binary_round_down s q k e) as H. simpl in H.
    replace (e + Zpos k) with E in H by lia.
    apply H; [|unfold emax, prec; lia].
    rewrite Zdigits_log2, Hq, Z.log2_mul_pow2 by lia.
    replace (e0 - E + Z.log2 (Z.abs c) + 1 + E) with (Z.log2 (Z.abs c) + 1 + e0) by lia.
    reflexivity.
Qed.

Lemma dyadic_canon (n e0 : Z) :
  -1074 <= e0 <= 971 -> Z.abs n < 2 ^ 53 -> dyadic n e0 = canon n e0.
Proof.
  intros He Hn. unfold dyadic, canon, binary_normalize.
  destruct n as [|p|p]; [reflexivity| |].
  - apply (round_exact false p e0 (Zpos p) e0); try lia.
    rewrite Z.sub_diag. simpl. lia.
  - apply (round_exact true p e0 (Zneg p) e0); try lia.
    rewrite Z.sub_diag. simpl. lia.
Qed.

(** The mantissa of a canonical number, aligned to a lower exponent and
    signed, is its value in units of that exponent. *)
Lemma aligned_value (n e0 ez : Z) :
  -1074 <= e0 <= 971 -> Z.abs n < 2 ^ 53 -> n <> 0 ->
  ez <= expOf n e0 ->
  cond_Zopp (n <? 0)
    (Zpos (fst (shl_align (Z.to_pos (Z.abs n * 2 ^ (e0 - expOf n e0)))
                          (expOf n e0) ez)))
  = n * 2 ^ (e0 - ez).
Proof.
  intros He Hn Hnz Hez.
  pose proof (expOf_bounds n e0 He Hn) as HE.
  assert (Hpow : forall k, 0 <= k -> 0 < 2 ^ k) by (intros; apply Z.pow_pos_nonneg; lia).
  rewrite shl_align_le by lia. simpl fst.
  pose proof (Hpow (e0 - expOf n e0) ltac:(lia)).
  pose proof (Hpow (expOf n e0 - ez) ltac:(lia)).
  rewrite !Z2Pos.id by (repeat apply Z.mul_pos_pos; lia).
  rewrite <- Z.mul_assoc, <- Z.pow_add_r by lia.
  replace (e0 - expOf n e0 + (expOf n e0 - ez)) with (e0 - ez) by lia.
  unfold cond_Zopp. destruct (Z.ltb_spec n 0); lia.
Qed.

Lemma normalize_exact (c e e0 : Z) :
  -1074 <= e0 <= 971 -> Z.abs c < 2 ^ 53 -> e <= e0 ->
  binary_normalize prec emax (c * 2 ^ (e0 - e)) e false = canon c e0.
Proof.
  intros He Hc Hle. unfold canon.
  assert (0 < 2 ^ (e0 - e)) by (apply Z.pow_pos_nonneg; lia).
  destruct (Z.eqb_spec c 0) as [->|Hnz]; [reflexivity|].
  unfold binary_normalize.
  destruct (c * 2 ^ (e0 - e)) as [|p|p] eqn:Hp; [nia| |].
  - replace (c <? 0) with false by (symmetry; apply Z.ltb_ge; nia).
    apply round_exact; first [lia | nia].
  - replace (c <? 0) with true by (symmetry; apply Z.ltb_lt; nia).
    apply round_exact; first [lia | nia].
Qed.

(** Sums and differences of multiples of [2^e0] are exact as long as the
    operands and the result stay below [2^53] units. *)
Lemma add_exact (e0 a b : Z) :
  -1074 <= e0 <= 971 ->
  Z.abs a < 2 ^ 53 -> Z.abs b < 2 ^ 53 -> Z.abs (a + b) < 2 ^ 53 ->
  add (dyadic a e0) (dyadic b e0) = dyadic (a + b) e0.
Proof.
  intros He Ha Hb Hab. rewrite !dyadic_canon by assumption.
  destruct (Z.eq_dec a 0) as [->|Hza]; [destruct (Z.eq_dec b 0) as [->|Hzb]|].
  - reflexivity.
  - rewrite Z.add_0_l. unfold canon. simpl (0 =? 0).
    destruct (Z.eqb_spec b 0); [lia|]. reflexivity.
  - destruct (Z.eq_dec b 0) as [->|Hzb].
    + rewrite Z.add_0_r. unfold canon. destruct (Z.eqb_spec a 0); [lia|]. reflexivity.
    + unfold canon at 1 2.
      destruct (Z.eqb_spec a 0); [lia|]. destruct (Z.eqb_spec b 0); [lia|].
      unfold add, SFadd.
      pose proof (expOf_bounds a e0 He Ha). pose proof (expOf_bounds b e0 He Hb).
      rewrite !aligned_value by lia.
      rewrite <- Z.mul_add_distr_r.
      apply normalize_exact; lia.
Qed.

Lemma sub_exact (e0 a b : Z) :
  -1074 <= e0 <= 971 ->
  Z.abs a < 2 ^ 53 -> Z.abs b < 2 ^ 53 -> Z.abs (a - b) < 2 ^ 53 ->
  sub (dyadic a e0) (dyadic b e0) = dyadic (a - b) e0.
Proof.
  intros He Ha Hb Hab. rewrite !dyadic_canon by assumption.
  destruct (Z.eq_dec a 0) as [->|Hza]; [destruct (Z.eq_dec b 0) as [->|Hzb]|].
  - reflexivity.
  - rewrite Z.sub_0_l. unfold canon. simpl (0 =? 0).
    destruct (Z.eqb_spec b 0); [lia|].
    destruct (Z.eqb_spec (- b) 0); [lia|].
    unfold sub, SFsub, zero. unfold expOf. rewrite Z.abs_opp.
    f_equal. destruct (Z.ltb_spec b 0), (Z.ltb_spec (- b) 0); try reflexivity; lia.
  - destruct (Z.eq_dec b 0) as [->|Hzb].
    + rewrite Z.sub_0_r. unfold canon. destruct (Z.eqb_spec a 0); [lia|]. reflexivity.
    + unfold canon at 1 2.
      destruct (Z.eqb_spec a 0); [lia|]. destruct (Z.eqb_spec b 0); [lia|].
      unfold sub, SFsub.
      pose proof (expOf_bounds a e0 He Ha). pose proof (expOf_bounds b e0 He Hb).
      rewrite !aligned_value by lia.
      rewrite <- Z.mul_sub_distr_r.
      apply normalize_exact; lia.
Qed.

Lemma truncate_ofZ (n : Z) : Z.abs n < 2 ^ 53 -> truncate (ofZ n) = Some n.
Proof.
  intros Hn. unfold ofZ. rewrite dyadic_canon by lia. unfold canon.
  destruct (Z.eqb_spec n 0) as [->|Hnz]; [reflexivity|].
  pose proof (expOf_bounds n 0 ltac:(lia) Hn) as HE.
  unfold truncate. f_equal.
  assert (0 < 2 ^ (0 - expOf n 0)) by (apply Z.pow_pos_nonneg; lia).
  rewrite Z2Pos.id by (apply Z.mul_pos_pos; lia).
  destruct (Z.leb_spec 0 (expOf n 0)).
  - replace (expOf n 0) with 0 by lia. simpl (0 - 0). rewrite Z.pow_0_r, !Z.mul_1_r.
    unfold cond_Zopp. destruct (Z.ltb_spec n 0); lia.
  - replace (0 - expOf n 0) with (- expOf n 0) by lia.
    rewrite Z.div_mul by lia.
    unfold cond_Zopp. destruct (Z.ltb_spec n 0); lia.
Qed.
End Binary64.

(* ===================================================================== *)
(** * The calendar functions *)
(* ===================================================================== *)

Section Calendar.
Import JS.

Lemma DaysInYear_next (y : Z) : DayFromYear (y + 1) = DayFromYear y + DaysInYear y.
Proof.
  unfold DayFromYear, DaysInYear.
  destruct (Z.eqb_spec (y mod 4) 0), (Z.eqb_spec (y mod 100) 0), (Z.eqb_spec (y mod 400) 0);
    simpl; Z.div_mod_to_equations; lia.
Qed.

Lemma YearFromDay_spec (d : Z) :
  DayFromYear (YearFromDay d) <= d < DayFromYear (YearFromDay d + 1).
Proof.
  unfold YearFromDay.
  set (y0 := 1970 + d * 400 / 146097).
  assert (H0 : DayFromYear (y0 - 1) <= d < DayFromYear (y0 + 2)).
  { unfold y0, DayFromYear. Z.div_mod_to_equations. lia. }
  destruct (Z.ltb_spec d (DayFromYear y0)).
  - replace (y0 - 1 + 1) with y0 by lia. lia.
  - destruct (Z.leb_spec (DayFromYear (y0 + 1)) d).
    + replace (y0 + 1 + 1) with (y0 + 2) by lia. lia.
    + lia.
Qed.

Lemma DayWithinYear_bounds (t : Z) :
  0 <= DayWithinYear t < DaysInYear (YearFromTime t).
Proof.
  unfold DayWithinYear, YearFromTime.
  pose proof (YearFromDay_spec (Day t)) as H.
  rewrite DaysInYear_next in H. lia.
Qed.

Lemma DaysInYear_leap (y : Z) : DaysInYear y = 365 + leap y.
Proof.
  unfold leap, DaysInYear.
  destruct (negb (y mod 4 =? 0)), (negb (y mod 100 =? 0)), (negb (y mod 400 =? 0));
    reflexivity.
Qed.

Lemma leap_range (y : Z) : 0 <= leap y <= 1.
Proof. unfold leap. destruct (DaysInYear y =? 366); lia. Qed.

Ltac month_cases :=
  unfold MonthFromTime;
  repeat match goal with
         | |- context [if ?a <? ?b then _ else _] =>
             destruct (Z.ltb_spec a b)
         end.

Lemma MonthFromTime_range (t : Z) : 0 <= MonthFromTime t <= 11.
Proof. month_cases; lia. Qed.

Lemma DateFromTime_range (t : Z) : 1 <= DateFromTime t <= 31.
Proof.
  pose proof (DayWithinYear_bounds t) as Hd.
  rewrite DaysInYear_leap in Hd.
  pose proof (leap_range (YearFromTime t)) as Hl.
  unfold DateFromTime. month_cases; simpl monthStart; lia.
Qed.

(** Moving the day of the month by [k] moves the day number by [k]. *)
Lemma MakeDay_shift (t k : Z) :
  MakeDay (YearFromTime t) (MonthFromTime t) (DateFromTime t + k) = Day t + k.
Proof.
  pose proof (MonthFromTime_range t) as Hm.
  unfold MakeDay.
  rewrite Z.div_small, Z.mod_small, Z.add_0_r by lia.
  unfold DateFromTime, DayWithinYear. lia.
Qed.

Lemma setDate_getDate (env : Env) (n : Z) :
  Z.abs n < 2 ^ 52 ->
  setDate env (newDate env) (sub (getDate env (newDate env)) (ofZ n))
  = TimeClip (UTC env (LocalTime env (now env) - n * msPerDay)).
Proof.
  intros Hn. unfold newDate, getDate, setDate.
  set (lt := LocalTime env (now env)).
  pose proof (DateFromTime_range lt) as Hd.
  unfold ofZ. rewrite sub_exact by lia. fold (ofZ (DateFromTime lt - n)).
  rewrite truncate_ofZ by lia.
  replace (DateFromTime lt - n) with (DateFromTime lt + - n) by lia.
  rewrite MakeDay_shift. unfold MakeDate, Day, TimeWithinDay.
  f_equal. f_equal.
  pose proof (Z.div_mod lt msPerDay ltac:(unfold msPerDay; lia)). lia.
Qed.
End Calendar.

(* ===================================================================== *)
(** * Properties of the service *)
(* ===================================================================== *)

Import TransactionService.

(** ** The fetch orchestrator *)

Lemma fetchTransactions_ok (env : JS.Env) (provider : Provider)
    (filters : option TransactionFilters.t) :
  exists r, fetchTransactions env provider filters = Ok r.
Proof.
  unfold fetchTransactions.
  destruct (fetchFromSdk env provider filters); simpl; eauto.
Qed.

(** [fetchTransactions] reads only the [status] field of its argument. *)
Lemma passesStatus_none (f : TransactionFilters.t) (txData : Transaction.t) :
  TransactionFilters.status f = None ->
  passesStatus (Some f) txData = passesStatus None txData.
Proof. unfold passesStatus. simpl. intros ->. reflexivity. Qed.

Lemma collectTransactions_ext (env : JS.Env)
    (f g : option TransactionFilters.t) (orders : list Wix.Order.t)
    (otxs : list Wix.OrderTransactions.t) :
  (forall txData, passesStatus f txData = passesStatus g txData) ->
  collectTransactions env f orders otxs = collectTransactions env g orders otxs.
Proof.
  intros H. unfold collectTransactions.
  apply flat_map_ext. intros orderTx.
  f_equal; apply List.filter_ext; exact H.
Qed.

Lemma fetchTransactions_ext (env : JS.Env) (provider : Provider)
    (f g : option TransactionFilters.t) :
  (forall txData, passesStatus f txData = passesStatus g txData) ->
  fetchTransactions env provider f = fetchTransactions env provider g.
Proof.
  intros H. unfold fetchTransactions, fetchFromSdk.
  destruct provider as [ecom|e]; simpl; [|reflexivity].
  destruct (Ecom.searchOrders ecom) as [r|e]; simpl; [|reflexivity].
  destruct (Wix.SearchOrdersResponse.orders r) as [[|o os]|]; simpl; try reflexivity.
  destruct (Ecom.listTransactionsForMultipleOrders ecom _) as [tr|e]; simpl; [|reflexivity].
  destruct (Wix.ListTransactionsResponse.orderTransactions tr); [|reflexivity].
  rewrite (collectTransactions_ext env f g _ _ H). reflexivity.
Qed.

(** The refresh passes [{ dateRange: 7 }], which the fetch never reads: it
    returns what an unfiltered fetch returns. *)
Lemma refreshTransactions_unfiltered (env : JS.Env) (provider : Provider) :
  refreshTransactions env provider = fetchTransactions env provider None.
Proof.
  unfold refreshTransactions.
  rewrite (fetchTransactions_ext env provider _ None).
  - destruct (fetchTransactions_ok env provider None) as [r ->]. reflexivity.
  - intros txData. apply passesStatus_none. reflexivity.
Qed.

(** C1 (evaluation at the failing input).  The refresh is an unfiltered
    fetch, whatever the provider answers.  In particular, when a provider
    answers with one payment created 45 days before the clock reading, the
    refresh returns it as live data, although restricting the same fetch to
    the last seven days (the date-range filter with [dateRange = 7]) leaves
    nothing. *)
Theorem C1_refresh_keeps_old_transactions :
  (forall env provider,
     refreshTransactions env provider = fetchTransactions env provider None)
  /\ exists old,
       refreshTransactions Examples.env Examples.liveProvider
         = Ok {| FetchResult.data := [old]; FetchResult.usingMockData := false |}
       /\ Transaction.createdDate old = "2024-12-01T09:00:00Z"
       /\ JS.DateParse Examples.env (Transaction.createdDate old)
          = Some (Examples.clock - 45 * JS.msPerDay - 5400000)
       /\ applyFilters Examples.env [old]
            (Some (Examples.lastDays (JS.ofZ 7))) = [].
Proof.
  split; [exact refreshTransactions_unfiltered|].
  eexists. split; [vm_compute; reflexivity|].
  split; [reflexivity|]. split; vm_compute; reflexivity.
Qed.

(** C4.  When the order search throws, the order search returns an empty
    collection, or the transaction listing throws, [fetchTransactions]
    resolves (it does not throw) to the synthetic dataset of five records
    with [usingMockData = true]. *)
Theorem C4_fallback_on_provider_failure (env : JS.Env) (provider : Provider)
    (filters : option TransactionFilters.t) :
  ProviderFailure provider ->
  fetchTransactions env provider filters
    = Ok {| FetchResult.data := getMockTransactions;
            FetchResult.usingMockData := true |}
  /\ length getMockTransactions = 5%nat.
Proof.
  intros H. split; [|reflexivity].
  unfold fetchTransactions, fetchFromSdk.
  destruct H as [ecom e Hs | ecom r Hs Ho | ecom r orders e Hs Ho Hne Hl]; simpl.
  - rewrite Hs. reflexivity.
  - rewrite Hs. simpl. rewrite Ho. reflexivity.
  - rewrite Hs. simpl. rewrite Ho.
    destruct orders as [|o os]; [congruence|].
    rewrite Hl. reflexivity.
Qed.

(** C4 (witness): the three sample providers, one for each failure. *)
Lemma C4_fallback_witness :
  (fetchTransactions Examples.env (Ok Examples.searchThrows) None
     = Ok {| FetchResult.data := getMockTransactions;
             FetchResult.usingMockData := true |}
   /\ length getMockTransactions = 5%nat)
  /\ (fetchTransactions Examples.env (Ok Examples.noOrders) None
        = Ok {| FetchResult.data := getMockTransactions;
                FetchResult.usingMockData := true |}
      /\ length getMockTransactions = 5%nat)
  /\ (fetchTransactions Examples.env (Ok Examples.listingThrows) None
        = Ok {| FetchResult.data := getMockTransactions;
                FetchResult.usingMockData := true |}
      /\ length getMockTransactions = 5%nat).
Proof.
  split; [|split].
  - apply C4_fallback_on_provider_failure.
    apply (SearchThrows Examples.searchThrows "Network Error"). reflexivity.
  - apply C4_fallback_on_provider_failure.
    apply (SearchEmpty Examples.noOrders
             {| Wix.SearchOrdersResponse.orders := Some [] |}); reflexivity.
  - apply C4_fallback_on_provider_failure.
    apply (ListingThrows Examples.listingThrows
             {| Wix.SearchOrdersResponse.orders := Some [Examples.sampleOrder] |}
             [Examples.sampleOrder] "Forbidden"); try reflexivity.
    discriminate.
Defined.

(** ** The status mapper *)

(** C5.  The status of a transformed payment is APPROVED for the provider
    statuses APPROVED and AUTHORIZED, DECLINED for DECLINED and CANCELED,
    REFUNDED for REFUNDED and PARTIALLY_REFUNDED, PENDING for PENDING and
    PENDING_MERCHANT, and PENDING for every other provider status: an
    absent one, the empty string, or any other string (the comparison is
    case-sensitive).  The transformer is a total function, so nothing is
    thrown.  A transformed refund always has status REFUNDED. *)
Theorem C5_status_mapping (env : JS.Env) (payment : Wix.Payment.t)
    (refund : Wix.Refund.t) (order : option Wix.Order.t) :
  (providerStatus payment = Some "APPROVED"
   \/ providerStatus payment = Some "AUTHORIZED" ->
   Transaction.status (transformPaymentToTransaction env payment order) = APPROVED)
  /\ (providerStatus payment = Some "DECLINED"
      \/ providerStatus payment = Some "CANCELED" ->
      Transaction.status (transformPaymentToTransaction env payment order) = DECLINED)
  /\ (providerStatus payment = Some "REFUNDED"
      \/ providerStatus payment = Some "PARTIALLY_REFUNDED" ->
      Transaction.status (transformPaymentToTransaction env payment order) = REFUNDED)
  /\ (providerStatus payment = Some "PENDING"
      \/ providerStatus payment = Some "PENDING_MERCHANT" ->
      Transaction.status (transformPaymentToTransaction env payment order) = PENDING)
  /\ (~ In (providerStatus payment)
           [Some "APPROVED"; Some "AUTHORIZED"; Some "DECLINED";
            Some "CANCELED"; Some "REFUNDED"; Some "PARTIALLY_REFUNDED"] ->
      Transaction.status (transformPaymentToTransaction env payment order) = PENDING)
  /\ Transaction.status (transformRefundToTransaction env refund order) = REFUNDED.
Proof.
  simpl. unfold paymentStatusOf. set (s := providerStatus payment).
  repeat split.
  - intros [-> | ->]; reflexivity.
  - intros [-> | ->]; reflexivity.
  - intros [-> | ->]; reflexivity.
  - intros [-> | ->]; reflexivity.
  - intros Hn. destruct s as [x|]; [|reflexivity].
    repeat match goal with
           | |- context [String.eqb x ?k] =>
               destruct (String.eqb_spec x k) as [->|_]
           end; simpl; try reflexivity;
      exfalso; apply Hn; simpl; tauto.
Qed.

(** C5 (witness): AUTHORIZED maps to APPROVED, and the lower-case
    [approved] is not recognised. *)
Lemma C5_status_mapping_witness :
  Transaction.status
    (transformPaymentToTransaction Examples.env
       (Examples.samplePayment (Some "10") (Some "AUTHORIZED") "2025-01-14T08:00:00Z")
       None) = APPROVED
  /\ Transaction.status
       (transformPaymentToTransaction Examples.env
          (Examples.samplePayment (Some "10") (Some "approved") "2025-01-14T08:00:00Z")
          None) = PENDING.
Proof.
  split.
  - apply (C5_status_mapping Examples.env
             (Examples.samplePayment (Some "10") (Some "AUTHORIZED") "2025-01-14T08:00:00Z")
             (Examples.sampleRefund None) None).
    right. reflexivity.
  - apply (C5_status_mapping Examples.env
             (Examples.samplePayment (Some "10") (Some "approved") "2025-01-14T08:00:00Z")
             (Examples.sampleRefund None) None).
    simpl. intros H.
    repeat (destruct H as [H|H]; [discriminate H|]). exact H.
Defined.

(** ** The metrics aggregator on the synthetic dataset *)

(** C9.  The synthetic dataset holds APPROVED 250.00, APPROVED 180.50,
    PENDING 320.75, DECLINED 95.00 and REFUNDED 450.25, and its metrics are
    totalApproved = 430.50, totalPending = 320.75, totalDeclined = 95.00,
    totalRefunded = 450.25, totalRevenue = -19.75, totalTransactions = 5. *)
Theorem C9_mock_metrics :
  map (fun t => (Transaction.status t, Transaction.amount t)) getMockTransactions
    = [ (APPROVED, JS.decimal 25000 (-2)); (APPROVED, JS.decimal 18050 (-2));
        (PENDING, JS.decimal 32075 (-2)); (DECLINED, JS.decimal 9500 (-2));
        (REFUNDED, JS.decimal 45025 (-2)) ]
  /\ calculateMetrics getMockTransactions
     = {| TransactionMetrics.totalApproved := JS.decimal 43050 (-2);
          TransactionMetrics.totalPending := JS.decimal 32075 (-2);
          TransactionMetrics.totalDeclined := JS.decimal 9500 (-2);
          TransactionMetrics.totalRefunded := JS.decimal 45025 (-2);
          TransactionMetrics.totalTransactions := JS.ofZ 5;
          TransactionMetrics.totalRevenue := JS.decimal_signed true 1975 (-2) |}.
Proof. split; [reflexivity | vm_compute; reflexivity]. Qed.

(** ** Amount parsing *)

Lemma binary_round_aux_sign (m e : Z) (l : location) :
  JS.is_negative (binary_round_aux JS.prec JS.emax false m e l) = false.
Proof.
  unfold binary_round_aux.
  destruct (shr_fexp JS.prec JS.emax m e l) as [mrs e1].
  destruct (shr_fexp JS.prec JS.emax _ e1 loc_Exact) as [mrs2 e2].
  destruct (shr_m mrs2); [reflexivity| |reflexivity].
  destruct (e2 <=? JS.emax - JS.prec); reflexivity.
Qed.

Lemma binary_normalize_sign (n e : Z) :
  0 <= n -> JS.is_negative (binary_normalize JS.prec JS.emax n e false) = false.
Proof.
  intros Hn. destruct n as [|p|p]; [reflexivity| |lia].
  unfold binary_normalize, binary_round.
  destruct (shl_align p e _) as [mz ez]. apply binary_round_aux_sign.
Qed.

Lemma digits_nonneg (s : string) :
  forall acc cnt, 0 <= acc -> 0 <= fst (fst (JS.digits s acc cnt)).
Proof.
  induction s as [|c r IH]; intros acc cnt Hacc; simpl; [exact Hacc|].
  destruct (JS.isDigit c) eqn:Hd; [|exact Hacc].
  apply IH. unfold JS.isDigit in Hd. lia.
Qed.

Lemma decimal_signed_sign (m e : Z) :
  0 <= m -> JS.is_negative (JS.decimal_signed false m e) = false.
Proof.
  intros Hm. unfold JS.decimal_signed.
  destruct (m =? 0); [reflexivity|].
  destruct (0 <=? e) eqn:He.
  - apply binary_normalize_sign. simpl. apply Z.mul_nonneg_nonneg; [lia|].
    apply Z.pow_nonneg. lia.
  - apply binary_normalize_sign. simpl.
    assert (0 < 10 ^ (- e)) by (apply Z.pow_pos_nonneg; lia).
    assert (0 <= m * 2 ^ (64 + Z.log2_up (10 ^ (- e)))).
    { apply Z.mul_nonneg_nonneg; [lia|]. apply Z.pow_nonneg. lia. }
    assert (0 <= m * 2 ^ (64 + Z.log2_up (10 ^ (- e))) / 10 ^ (- e))
      by (apply Z.div_pos; lia).
    destruct (_ =? 0); lia.
Qed.

(** [parseFloat] yields a negative number only for a string whose numeric
    prefix starts with a minus sign. *)
Lemma parseFloat_sign (s : string) :
  fst (JS.signOf (JS.trimStart s)) = false ->
  JS.is_negative (JS.parseFloat s) = false.
Proof.
  unfold JS.parseFloat. destruct (JS.signOf (JS.trimStart s)) as [neg t1].
  simpl. intros ->.
  destruct (String.prefix "Infinity" t1); [reflexivity|].
  pose proof (digits_nonneg t1 0 0 ltac:(lia)) as H1.
  destruct (JS.digits t1 0 0) as [[ip ni] t2]. simpl in H1.
  assert (H2 : forall r, 0 <= fst (fst (JS.digits r ip 0)))
    by (intros r; apply digits_nonneg; exact H1).
  assert (Hm : 0 <= fst (fst (match t2 with
                              | String "." r => JS.digits r ip 0
                              | _ => (ip, 0, t2)
                              end))).
  { destruct t2 as [|c r]; [exact H1|].
    destruct c as [[] [] [] [] [] [] [] []]; try exact H1. apply H2. }
  destruct (match t2 with String "." r => JS.digits r ip 0 | _ => (ip, 0, t2) end)
    as [[m nf] t3].
  simpl in Hm.
  destruct ((ni =? 0) && (nf =? 0)); [reflexivity|].
  apply decimal_signed_sign. exact Hm.
Qed.

(** C2 (as amended).  The amount of a transformed payment or refund is
    [parseFloat] of the provider amount string.  A missing or empty amount
    string is replaced by ['0'] and yields exactly 0.  The sign is not
    checked: the amount is not negative whenever the string (after leading
    white space) does not start with a minus sign. *)
Theorem C2_amount_parsing (env : JS.Env) (payment : Wix.Payment.t)
    (refund : Wix.Refund.t) (order : option Wix.Order.t) :
  (paymentAmount payment = None \/ paymentAmount payment = Some "" ->
   Transaction.amount (transformPaymentToTransaction env payment order) = JS.zero)
  /\ (refundAmount refund = None \/ refundAmount refund = Some "" ->
      Transaction.amount (transformRefundToTransaction env refund order) = JS.zero)
  /\ (forall s, paymentAmount payment = Some s -> s <> "" ->
        Transaction.amount (transformPaymentToTransaction env payment order)
          = JS.parseFloat s)
  /\ (forall s, refundAmount refund = Some s -> s <> "" ->
        Transaction.amount (transformRefundToTransaction env refund order)
          = JS.parseFloat s)
  /\ (forall s, paymentAmount payment = Some s ->
        fst (JS.signOf (JS.trimStart s)) = false ->
        JS.is_negative
          (Transaction.amount (transformPaymentToTransaction env payment order))
          = false)
  /\ (forall s, refundAmount refund = Some s ->
        fst (JS.signOf (JS.trimStart s)) = false ->
        JS.is_negative
          (Transaction.amount (transformRefundToTransaction env refund order))
          = false).
Proof.
  simpl.
  assert (Hor : forall s, s <> "" -> JS.orElse (Some s) "0" = s).
  { intros s Hs. unfold JS.orElse. destruct (String.eqb_spec s ""); congruence. }
  repeat split.
  - intros [-> | ->]; reflexivity.
  - intros [-> | ->]; reflexivity.
  - intros s -> Hs. rewrite Hor by exact Hs. reflexivity.
  - intros s -> Hs. rewrite Hor by exact Hs. reflexivity.
  - intros s -> Hs. destruct (String.eqb_spec s "") as [->|Hne]; [reflexivity|].
    rewrite Hor by exact Hne. apply parseFloat_sign. exact Hs.
  - intros s -> Hs. destruct (String.eqb_spec s "") as [->|Hne]; [reflexivity|].
    rewrite Hor by exact Hne. apply parseFloat_sign. exact Hs.
Qed.

(** C2 (witness): an empty amount string, and the amount string 180.50. *)
Lemma C2_amount_parsing_witness :
  Transaction.amount
    (transformPaymentToTransaction Examples.env
       (Examples.samplePayment (Some "") (Some "APPROVED") "2025-01-14T08:00:00Z")
       None) = JS.zero
  /\ Transaction.amount
       (transformRefundToTransaction Examples.env
          (Examples.sampleRefund (Some "180.50")) None) = JS.parseFloat "180.50".
Proof.
  split.
  - apply (C2_amount_parsing Examples.env
             (Examples.samplePayment (Some "") (Some "APPROVED") "2025-01-14T08:00:00Z")
             (Examples.sampleRefund (Some "180.50")) None).
    right. reflexivity.
  - apply (C2_amount_parsing Examples.env
             (Examples.samplePayment (Some "") (Some "APPROVED") "2025-01-14T08:00:00Z")
             (Examples.sampleRefund (Some "180.50")) None).
    + reflexivity.
    + discriminate.
Defined.

(** C2 (counterexample).  The amount string ["-5"] yields the negative
    amount -5, and the unparsable amount string ["abc"] yields [NaN], which
    is not 0. *)
Lemma C2_amount_counterexample :
  Transaction.amount
    (transformPaymentToTransaction Examples.env
       (Examples.samplePayment (Some "-5") (Some "APPROVED") "2025-01-14T08:00:00Z")
       None) = JS.decimal_signed true 5 0
  /\ JS.is_negative (JS.decimal_signed true 5 0) = true
  /\ Transaction.amount
       (transformRefundToTransaction Examples.env
          (Examples.sampleRefund (Some "abc")) None) = JS.NaN
  /\ JS.NaN <> JS.zero.
Proof.
  repeat split; try (vm_compute; reflexivity). discriminate.
Qed.

(** ** The filter engine *)

(** C10.  The falsy values [dateRange = 0] (either zero) and
    [searchQuery = ""] behave as absent fields: the result equals the one
    obtained with the fields omitted, so with [dateRange = 0] no date
    constraint is applied. *)
Theorem C10_falsy_filters_are_absent (env : JS.Env)
    (transactions : list Transaction.t)
    (status searchQuery : option string) (dateRange limit offset : option JS.number)
    (sign : bool) :
  applyFilters env transactions
    (Some {| TransactionFilters.status := status;
             TransactionFilters.dateRange := Some (S754_zero sign);
             TransactionFilters.searchQuery := Some "";
             TransactionFilters.limit := limit;
             TransactionFilters.offset := offset |})
  = applyFilters env transactions
      (Some {| TransactionFilters.status := status;
               TransactionFilters.dateRange := None;
               TransactionFilters.searchQuery := None;
               TransactionFilters.limit := limit;
               TransactionFilters.offset := offset |})
  /\ applyFilters env transactions
       (Some {| TransactionFilters.status := status;
                TransactionFilters.dateRange := Some (S754_zero sign);
                TransactionFilters.searchQuery := searchQuery;
                TransactionFilters.limit := limit;
                TransactionFilters.offset := offset |})
     = applyFilters env transactions
         (Some {| TransactionFilters.status := status;
                  TransactionFilters.dateRange := None;
                  TransactionFilters.searchQuery := searchQuery;
                  TransactionFilters.limit := limit;
                  TransactionFilters.offset := offset |})
  /\ applyFilters env transactions
       (Some {| TransactionFilters.status := status;
                TransactionFilters.dateRange := dateRange;
                TransactionFilters.searchQuery := Some "";
                TransactionFilters.limit := limit;
                TransactionFilters.offset := offset |})
     = applyFilters env transactions
         (Some {| TransactionFilters.status := status;
                  TransactionFilters.dateRange := dateRange;
                  TransactionFilters.searchQuery := None;
                  TransactionFilters.limit := limit;
                  TransactionFilters.offset := offset |})
  /\ JS.ofZ 0 = S754_zero false.
Proof. repeat split. Qed.

(** With [dateRange = 0] a transaction created before the clock reading is
    kept. *)
Example dateRange_zero_keeps_past :
  applyFilters Examples.env getMockTransactions
    (Some (Examples.lastDays (JS.ofZ 0))) = getMockTransactions.
Proof. reflexivity. Qed.

Lemma alloc_lookup (content : list Transaction.t)
    (store : gmap nat (list Transaction.t)) :
  snd (alloc content store) !! fst (alloc content store) = Some content.
Proof. unfold alloc. simpl. apply lookup_insert_eq. Qed.

Lemma alloc_preserves (content : list Transaction.t)
    (store : gmap nat (list Transaction.t)) (l : nat) (xs : list Transaction.t) :
  store !! l = Some xs -> snd (alloc content store) !! l = Some xs.
Proof.
  intros Hl. unfold alloc. simpl. rewrite lookup_insert_ne; [exact Hl|].
  intros <-. pose proof (is_fresh (dom store)) as Hf.
  apply Hf. apply elem_of_dom. eauto.
Qed.

Lemma filterWhenRef_spec (step : option (Transaction.t -> bool))
    (state : nat * gmap nat (list Transaction.t)) (content : list Transaction.t) :
  snd state !! fst state = Some content ->
  snd (filterWhenRef step state) !! fst (filterWhenRef step state)
    = Some (filterWhen step content)
  /\ forall l xs, snd state !! l = Some xs ->
                  snd (filterWhenRef step state) !! l = Some xs.
Proof.
  intros Hs. destruct step as [callback|]; simpl.
  - rewrite Hs. simpl. split; [apply alloc_lookup|].
    intros l xs. apply alloc_preserves.
  - split; [exact Hs | auto].
Qed.

(** The reference-level function computes [applyFilters] and leaves every
    array of the store as it was. *)
Lemma applyFiltersRef_spec (env : JS.Env) (store : gmap nat (list Transaction.t))
    (transactions : nat) (content : list Transaction.t)
    (filters : option TransactionFilters.t) :
  store !! transactions = Some content ->
  snd (applyFiltersRef env store transactions filters)
    !! fst (applyFiltersRef env store transactions filters)
    = Some (applyFilters env content filters)
  /\ forall l xs, store !! l = Some xs ->
       snd (applyFiltersRef env store transactions filters) !! l = Some xs.
Proof.
  intros Hs. destruct filters as [filters|]; simpl; [|split; [exact Hs|auto]].
  rewrite Hs. simpl.
  set (s0 := alloc content store).
  assert (H0 : snd s0 !! fst s0 = Some content) by apply alloc_lookup.
  destruct (filterWhenRef_spec (statusStep filters) s0 _ H0) as [H1 P1].
  destruct (filterWhenRef_spec (searchStep filters) _ _ H1) as [H2 P2].
  destruct (filterWhenRef_spec (dateStep env filters) _ _ H2) as [H3 P3].
  split; [exact H3|].
  intros l xs Hl. apply P3, P2, P1. apply alloc_preserves. exact Hl.
Qed.

(** C8.  With no filters -- the argument absent, or the empty filter
    object -- the returned array has the content of the input array; and
    for every filter argument the call leaves the input array (and every
    other array of the store) with the content it had. *)
Theorem C8_no_filters_identity_no_mutation (env : JS.Env)
    (store : gmap nat (list Transaction.t)) (transactions : nat)
    (content : list Transaction.t) (filters : option TransactionFilters.t) :
  store !! transactions = Some content ->
  applyFilters env content None = content
  /\ applyFilters env content (Some Examples.noFilters) = content
  /\ snd (applyFiltersRef env store transactions None)
       !! fst (applyFiltersRef env store transactions None) = Some content
  /\ snd (applyFiltersRef env store transactions (Some Examples.noFilters))
       !! fst (applyFiltersRef env store transactions (Some Examples.noFilters))
     = Some content
  /\ snd (applyFiltersRef env store transactions filters) !! transactions
     = Some content
  /\ forall l xs, store !! l = Some xs ->
       snd (applyFiltersRef env store transactions filters) !! l = Some xs.
Proof.
  intros Hs.
  destruct (applyFiltersRef_spec env store transactions content None Hs) as [Hn _].
  destruct (applyFiltersRef_spec env store transactions content
              (Some Examples.noFilters) Hs) as [He _].
  destruct (applyFiltersRef_spec env store transactions content filters Hs) as [_ Hp].
  repeat split; auto.
Qed.

(** C8 (witness): the synthetic dataset stored at reference 0. *)
Lemma C8_no_filters_witness :
  applyFilters Examples.env getMockTransactions None = getMockTransactions
  /\ applyFilters Examples.env getMockTransactions (Some Examples.noFilters)
     = getMockTransactions
  /\ snd (applyFiltersRef Examples.env {[ 0%nat := getMockTransactions ]} 0%nat None)
       !! fst (applyFiltersRef Examples.env {[ 0%nat := getMockTransactions ]} 0%nat None)
     = Some getMockTransactions
  /\ snd (applyFiltersRef Examples.env {[ 0%nat := getMockTransactions ]} 0%nat
            (Some Examples.noFilters))
       !! fst (applyFiltersRef Examples.env {[ 0%nat := getMockTransactions ]} 0%nat
                 (Some Examples.noFilters))
     = Some getMockTransactions
  /\ snd (applyFiltersRef Examples.env {[ 0%nat := getMockTransactions ]} 0%nat
            (Some (Examples.lastDays (JS.ofZ 2)))) !! 0%nat
     = Some getMockTransactions
  /\ forall l xs,
       ({[ 0%nat := getMockTransactions ]} : gmap nat (list Transaction.t)) !! l
         = Some xs ->
       snd (applyFiltersRef Examples.env {[ 0%nat := getMockTransactions ]} 0%nat
              (Some (Examples.lastDays (JS.ofZ 2)))) !! l = Some xs.
Proof.
  apply (C8_no_filters_identity_no_mutation Examples.env
           {[ 0%nat := getMockTransactions ]} 0%nat getMockTransactions
           (Some (Examples.lastDays (JS.ofZ 2)))).
  vm_compute. reflexivity.
Defined.

(** ** The metrics aggregator *)

Section ExactMetrics.

Variable e0 : Z.
Variable f : Transaction.t -> Z.
Hypothesis unit_representable : -1074 <= e0 <= 971.

Lemma magnitude_nonneg (txs : list Transaction.t) : 0 <= magnitude f txs.
Proof. induction txs; simpl; lia. Qed.

Lemma sumBy_bound (st : Status) (txs : list Transaction.t) :
  Z.abs (sumBy f st txs) <= magnitude f txs.
Proof.
  induction txs as [|t txs IH]; simpl; [lia|].
  destruct (sameStatus (Transaction.status t) st); lia.
Qed.

Lemma sumBy_total (txs : list Transaction.t) :
  Z.abs (sumBy f APPROVED txs) + Z.abs (sumBy f REFUNDED txs) <= magnitude f txs.
Proof.
  induction txs as [|t txs IH]; simpl; [lia|].
  destruct (Transaction.status t); simpl; lia.
Qed.

(** The accumulator after a run over exact amounts holds the exact sums. *)
Lemma fold_accumulate_exact (txs : list Transaction.t) :
  forall (A P D R : Z) (cnt : JS.number),
    (forall t, In t txs -> Transaction.amount t = JS.dyadic (f t) e0) ->
    Z.abs A + Z.abs P + Z.abs D + Z.abs R + magnitude f txs < 2 ^ 53 ->
    fold_left accumulate txs
      {| TransactionMetrics.totalApproved := JS.dyadic A e0;
         TransactionMetrics.totalPending := JS.dyadic P e0;
         TransactionMetrics.totalDeclined := JS.dyadic D e0;
         TransactionMetrics.totalRefunded := JS.dyadic R e0;
         TransactionMetrics.totalTransactions := cnt;
         TransactionMetrics.totalRevenue := JS.dyadic (A - R) e0 |}
    = {| TransactionMetrics.totalApproved := JS.dyadic (A + sumBy f APPROVED txs) e0;
         TransactionMetrics.totalPending := JS.dyadic (P + sumBy f PENDING txs) e0;
         TransactionMetrics.totalDeclined := JS.dyadic (D + sumBy f DECLINED txs) e0;
         TransactionMetrics.totalRefunded := JS.dyadic (R + sumBy f REFUNDED txs) e0;
         TransactionMetrics.totalTransactions := cnt;
         TransactionMetrics.totalRevenue :=
           JS.dyadic (A + sumBy f APPROVED txs - (R + sumBy f REFUNDED txs)) e0 |}.
Proof.
  induction txs as [|t txs IH]; intros A P D R cnt Hamt Hbound.
  - simpl. rewrite !Z.add_0_r. reflexivity.
  - pose proof (magnitude_nonneg txs) as Hm.
    assert (Ht : Transaction.amount t = JS.dyadic (f t) e0)
      by (apply Hamt; left; reflexivity).
    assert (Hrest : forall u, In u txs -> Transaction.amount u = JS.dyadic (f u) e0)
      by (intros u Hu; apply Hamt; right; exact Hu).
    simpl in Hbound. simpl fold_left. unfold accumulate at 2. rewrite Ht.
    simpl sumBy.
    destruct (Transaction.status t); simpl sameStatus; cbv iota;
      simpl TransactionMetrics.totalApproved; simpl TransactionMetrics.totalPending;
      simpl TransactionMetrics.totalDeclined; simpl TransactionMetrics.totalRefunded;
      simpl TransactionMetrics.totalTransactions; simpl TransactionMetrics.totalRevenue;
      rewrite ?add_exact, ?sub_exact by lia.
    + replace (A - R + f t) with (A + f t - R) by lia.
      rewrite IH by (auto; lia).
      f_equal; f_equal; lia.
    + rewrite IH by (auto; lia). f_equal; f_equal; lia.
    + rewrite IH by (auto; lia). f_equal; f_equal; lia.
    + replace (A - R - f t) with (A - (R + f t)) by lia.
      rewrite IH by (auto; lia).
      f_equal; f_equal; lia.
    + rewrite IH by (auto; lia). reflexivity.
Qed.

Lemma calculateMetrics_exact (txs : list Transaction.t) :
  (forall t, In t txs -> Transaction.amount t = JS.dyadic (f t) e0) ->
  magnitude f txs < 2 ^ 53 ->
  calculateMetrics txs
  = {| TransactionMetrics.totalApproved := JS.dyadic (sumBy f APPROVED txs) e0;
       TransactionMetrics.totalPending := JS.dyadic (sumBy f PENDING txs) e0;
       TransactionMetrics.totalDeclined := JS.dyadic (sumBy f DECLINED txs) e0;
       TransactionMetrics.totalRefunded := JS.dyadic (sumBy f REFUNDED txs) e0;
       TransactionMetrics.totalTransactions := JS.ofZ (Z.of_nat (length txs));
       TransactionMetrics.totalRevenue :=
         JS.dyadic (sumBy f APPROVED txs - sumBy f REFUNDED txs) e0 |}.
Proof.
  intros Hamt Hbound. unfold calculateMetrics.
  change JS.zero with (JS.dyadic 0 e0).
  change (JS.dyadic 0 e0) with (JS.dyadic (0 - 0) e0) at 5.
  rewrite fold_accumulate_exact by (auto; simpl; lia).
  reflexivity.
Qed.

Lemma sumBy_perm (st : Status) (txs txs' : list Transaction.t) :
  Permutation txs txs' -> sumBy f st txs = sumBy f st txs'.
Proof.
  induction 1 as [|t l l' _ IH|t u l|l l' l'' _ IH1 _ IH2]; simpl.
  - reflexivity.
  - rewrite IH. reflexivity.
  - destruct (sameStatus (Transaction.status t) st),
             (sameStatus (Transaction.status u) st); lia.
  - congruence.
Qed.

Lemma magnitude_perm (txs txs' : list Transaction.t) :
  Permutation txs txs' -> magnitude f txs = magnitude f txs'.
Proof.
  induction 1 as [|t l l' _ IH|t u l|l l' l'' _ IH1 _ IH2]; simpl; lia.
Qed.

End ExactMetrics.

(** C3 (as amended).  On the empty collection every field is zero.  For a
    collection whose amounts are whole multiples of one power of two, with
    magnitudes adding up to fewer than [2^53] such units -- so that no sum
    is rounded -- [totalRevenue = totalApproved - totalRefunded]. *)
Theorem C3_revenue_invariant (e0 : Z) (f : Transaction.t -> Z)
    (transactions : list Transaction.t) :
  -1074 <= e0 <= 971 ->
  (forall t, In t transactions -> Transaction.amount t = JS.dyadic (f t) e0) ->
  magnitude f transactions < 2 ^ 53 ->
  TransactionMetrics.totalRevenue (calculateMetrics transactions)
    = JS.sub (TransactionMetrics.totalApproved (calculateMetrics transactions))
             (TransactionMetrics.totalRefunded (calculateMetrics transactions))
  /\ calculateMetrics []
     = {| TransactionMetrics.totalApproved := JS.zero;
          TransactionMetrics.totalPending := JS.zero;
          TransactionMetrics.totalDeclined := JS.zero;
          TransactionMetrics.totalRefunded := JS.zero;
          TransactionMetrics.totalTransactions := JS.zero;
          TransactionMetrics.totalRevenue := JS.zero |}.
Proof.
  intros He Hamt Hbound. split; [|reflexivity].
  rewrite (calculateMetrics_exact e0 f He transactions Hamt Hbound). simpl.
  pose proof (sumBy_total f transactions).
  symmetry. apply sub_exact; lia.
Qed.

(** The synthetic dataset counted in quarters of a currency unit. *)
Lemma mock_in_quarters (t : Transaction.t) :
  In t getMockTransactions ->
  Transaction.amount t = JS.dyadic (JS.unitsOf (-2) (Transaction.amount t)) (-2).
Proof.
  intros H. repeat (destruct H as [<-|H]; [vm_compute; reflexivity|]).
  destruct H.
Qed.

(** C3 (witness): the synthetic dataset, counted in quarters. *)
Lemma C3_revenue_invariant_witness :
  TransactionMetrics.totalRevenue (calculateMetrics getMockTransactions)
    = JS.sub (TransactionMetrics.totalApproved (calculateMetrics getMockTransactions))
             (TransactionMetrics.totalRefunded (calculateMetrics getMockTransactions))
  /\ calculateMetrics []
     = {| TransactionMetrics.totalApproved := JS.zero;
          TransactionMetrics.totalPending := JS.zero;
          TransactionMetrics.totalDeclined := JS.zero;
          TransactionMetrics.totalRefunded := JS.zero;
          TransactionMetrics.totalTransactions := JS.zero;
          TransactionMetrics.totalRevenue := JS.zero |}.
Proof.
  apply (C3_revenue_invariant (-2)
           (fun t => JS.unitsOf (-2) (Transaction.amount t)) getMockTransactions).
  - lia.
  - exact mock_in_quarters.
  - vm_compute. reflexivity.
Defined.

(** C3 (counterexample).  For an approved 0.1, a refunded 0.3 and an
    approved 0.2, in this order, [totalRevenue] is
    [(0 + 0.1 - 0.3) + 0.2 = 2^-55] while [totalApproved - totalRefunded]
    is [(0.1 + 0.2) - 0.3 = 2^-54]. *)
Lemma C3_revenue_counterexample :
  exists transactions,
    transactions = [ Examples.sampleTx APPROVED (JS.decimal 1 (-1));
                     Examples.sampleTx REFUNDED (JS.decimal 3 (-1));
                     Examples.sampleTx APPROVED (JS.decimal 2 (-1)) ]
    /\ TransactionMetrics.totalRevenue (calculateMetrics transactions)
       = JS.dyadic 1 (-55)
    /\ JS.sub (TransactionMetrics.totalApproved (calculateMetrics transactions))
              (TransactionMetrics.totalRefunded (calculateMetrics transactions))
       = JS.dyadic 1 (-54)
    /\ TransactionMetrics.totalRevenue (calculateMetrics transactions)
       <> JS.sub (TransactionMetrics.totalApproved (calculateMetrics transactions))
                 (TransactionMetrics.totalRefunded (calculateMetrics transactions)).
Proof.
  eexists. split; [reflexivity|].
  split; [vm_compute; reflexivity|]. split; [vm_compute; reflexivity|].
  vm_compute. discriminate.
Qed.

(** C6 (as amended).  For a collection whose amounts are whole multiples
    of one power of two, with magnitudes adding up to fewer than [2^53]
    such units -- so that no sum is rounded -- every reordering has the
    same metrics.  (The aggregator is a function of the collection, so
    recomputing it on the same collection gives the same value.) *)
Theorem C6_order_independence (e0 : Z) (f : Transaction.t -> Z)
    (transactions reordered : list Transaction.t) :
  -1074 <= e0 <= 971 ->
  (forall t, In t transactions -> Transaction.amount t = JS.dyadic (f t) e0) ->
  magnitude f transactions < 2 ^ 53 ->
  Permutation transactions reordered ->
  calculateMetrics transactions = calculateMetrics reordered.
Proof.
  intros He Hamt Hbound Hperm.
  assert (Hamt' : forall t, In t reordered ->
                            Transaction.amount t = JS.dyadic (f t) e0).
  { intros t Ht. apply Hamt. apply (Permutation_in t (Permutation_sym Hperm) Ht). }
  assert (Hbound' : magnitude f reordered < 2 ^ 53)
    by (rewrite <- (magnitude_perm f _ _ Hperm); exact Hbound).
  rewrite (calculateMetrics_exact e0 f He transactions Hamt Hbound).
  rewrite (calculateMetrics_exact e0 f He reordered Hamt' Hbound').
  rewrite !(sumBy_perm f _ _ _ Hperm), (Permutation_length Hperm).
  reflexivity.
Qed.

(** C6 (witness): the synthetic dataset and its reversal. *)
Lemma C6_order_independence_witness :
  calculateMetrics getMockTransactions = calculateMetrics (rev getMockTransactions).
Proof.
  apply (C6_order_independence (-2)
           (fun t => JS.unitsOf (-2) (Transaction.amount t))).
  - lia.
  - exact mock_in_quarters.
  - vm_compute. reflexivity.
  - apply Permutation_rev.
Defined.

(** C6 (counterexample).  Three approved transactions of 0.1, 0.2 and 0.3
    total [0.6000000000000001] in this order and [0.6] in the reverse
    order. *)
Lemma C6_order_counterexample :
  exists transactions reordered,
    transactions = [ Examples.sampleTx APPROVED (JS.decimal 1 (-1));
                     Examples.sampleTx APPROVED (JS.decimal 2 (-1));
                     Examples.sampleTx APPROVED (JS.decimal 3 (-1)) ]
    /\ reordered = rev transactions
    /\ Permutation transactions reordered
    /\ TransactionMetrics.totalApproved (calculateMetrics transactions)
       = JS.decimal 6000000000000001 (-16)
    /\ TransactionMetrics.totalApproved (calculateMetrics reordered)
       = JS.decimal 6 (-1)
    /\ calculateMetrics transactions <> calculateMetrics reordered.
Proof.
  eexists. eexists. split; [reflexivity|]. split; [reflexivity|].
  split; [apply Permutation_rev|].
  split; [vm_compute; reflexivity|]. split; [vm_compute; reflexivity|].
  vm_compute. discriminate.
Qed.

(** ** The date-range filter *)

Lemma ofZ_truthy (n : Z) :
  n <> 0 -> Z.abs n < 2 ^ 53 -> JS.truthy_number (JS.ofZ n) = true.
Proof.
  intros Hnz Hn. unfold JS.ofZ. rewrite dyadic_canon by lia.
  unfold JS.canon. destruct (Z.eqb_spec n 0); [contradiction | reflexivity].
Qed.

(** For a whole number of days the cutoff is the clock reading moved back
    by that many calendar days of local time. *)
Lemma cutoffDate_whole_days (env : JS.Env) (n : Z) :
  Z.abs n < 2 ^ 52 ->
  cutoffDate env (JS.ofZ n)
  = JS.TimeClip (JS.UTC env (JS.LocalTime env (JS.now env) - n * JS.msPerDay)).
Proof. intros Hn. unfold cutoffDate. apply setDate_getDate. exact Hn. Qed.

(** C7 (as amended).  For a non-zero whole number [n] of days,
    [dateRange = n] keeps, among the transactions that pass the other
    filters, exactly those whose [createdDate] parses to a time on or after
    the cutoff; a transaction that is earlier, or whose date does not
    parse, is dropped.  The cutoff is the instant whose local date and time
    lie [n] calendar days before those of the clock reading, which is
    [now - n * 86400000] when the zone offset is constant; when it falls
    outside the range of valid dates nothing is kept.  With [dateRange]
    absent no date constraint is applied. *)
Theorem C7_date_range_filter (env : JS.Env) (transactions : list Transaction.t)
    (status searchQuery : option string) (limit offset : option JS.number)
    (n : Z) :
  n <> 0 -> Z.abs n < 2 ^ 52 ->
  applyFilters env transactions
    (Some {| TransactionFilters.status := status;
             TransactionFilters.dateRange := Some (JS.ofZ n);
             TransactionFilters.searchQuery := searchQuery;
             TransactionFilters.limit := limit;
             TransactionFilters.offset := offset |})
  = List.filter
      (fun t =>
         JS.dateGe (JS.DateParse env (Transaction.createdDate t))
           (JS.TimeClip
              (JS.UTC env (JS.LocalTime env (JS.now env) - n * JS.msPerDay))))
      (applyFilters env transactions
         (Some {| TransactionFilters.status := status;
                  TransactionFilters.dateRange := None;
                  TransactionFilters.searchQuery := searchQuery;
                  TransactionFilters.limit := limit;
                  TransactionFilters.offset := offset |}))
  /\ ((forall t b, JS.LocalTZA env t b = JS.LocalTZA env (JS.now env) true) ->
      JS.UTC env (JS.LocalTime env (JS.now env) - n * JS.msPerDay)
      = JS.now env - n * JS.msPerDay)
  /\ applyFilters env transactions
       (Some {| TransactionFilters.status := status;
                TransactionFilters.dateRange := None;
                TransactionFilters.searchQuery := searchQuery;
                TransactionFilters.limit := limit;
                TransactionFilters.offset := offset |})
     = filterWhen
         (searchStep {| TransactionFilters.status := status;
                        TransactionFilters.dateRange := None;
                        TransactionFilters.searchQuery := searchQuery;
                        TransactionFilters.limit := limit;
                        TransactionFilters.offset := offset |})
         (filterWhen
            (statusStep {| TransactionFilters.status := status;
                           TransactionFilters.dateRange := None;
                           TransactionFilters.searchQuery := searchQuery;
                           TransactionFilters.limit := limit;
                           TransactionFilters.offset := offset |})
            transactions).
Proof.
  intros Hnz Hn. split; [|split].
  - unfold applyFilters, dateStep. cbn [TransactionFilters.dateRange].
    rewrite ofZ_truthy by lia. rewrite cutoffDate_whole_days by exact Hn.
    reflexivity.
  - intros Hconst. unfold JS.UTC, JS.LocalTime.
    rewrite (Hconst (JS.now env + _ - _) false). lia.
  - reflexivity.
Qed.

(** C7 (witness): the synthetic dataset filtered to the last two days. *)
Lemma C7_date_range_filter_witness :
  map Transaction.id
    (applyFilters Examples.env getMockTransactions
       (Some (Examples.lastDays (JS.ofZ 2))))
  = ["TXN-001"; "TXN-002"].
Proof.
  pose proof (C7_date_range_filter Examples.env getMockTransactions
                None None None None 2 ltac:(lia) ltac:(lia)) as [H _].
  unfold Examples.lastDays. rewrite H. vm_compute. reflexivity.
Defined.

(** C7 (counterexample).  (1) With [dateRange = 0] the record TXN-005,
    created three days and 23 hours before the clock reading, is strictly
    earlier than [now - 0 days] and is kept.  (2) With [dateRange = 1.5] a
    transaction created 38.5 hours before the clock reading, strictly
    earlier than [now - 1.5 days], is kept.  (3) Twelve hours after the
    clocks moved forward, [dateRange = 1] drops a transaction created 23.5
    hours before the clock reading, which is after [now - 1 day]. *)
Lemma C7_date_range_counterexample :
  (exists t,
     In t (applyFilters Examples.env getMockTransactions
             (Some (Examples.lastDays (JS.ofZ 0))))
     /\ Transaction.id t = "TXN-005"
     /\ JS.DateParse Examples.env (Transaction.createdDate t)
        = Some (JS.now Examples.env - 4 * JS.msPerDay + 3600000)
     /\ JS.now Examples.env - 4 * JS.msPerDay + 3600000
        < JS.now Examples.env - 0 * JS.msPerDay)
  /\ (applyFilters Examples.env [Examples.datedTx "2025-01-13T20:00:00Z"]
        (Some (Examples.lastDays (JS.decimal 15 (-1))))
      = [Examples.datedTx "2025-01-13T20:00:00Z"]
      /\ JS.DateParse Examples.env "2025-01-13T20:00:00Z"
         = Some (JS.now Examples.env - 138600000)
      /\ 2 * (JS.now Examples.env - 138600000)
         < 2 * JS.now Examples.env - 3 * JS.msPerDay)
  /\ (applyFilters Examples.dstEnv [Examples.datedTx "2025-03-29T13:30:00Z"]
        (Some (Examples.lastDays (JS.ofZ 1))) = []
      /\ JS.DateParse Examples.dstEnv "2025-03-29T13:30:00Z"
         = Some (JS.now Examples.dstEnv - 84600000)
      /\ JS.now Examples.dstEnv - 1 * JS.msPerDay
         <= JS.now Examples.dstEnv - 84600000).
Proof.
  split; [|split].
  - exists (nth 4 getMockTransactions (Examples.sampleTx CANCELLED JS.zero)).
    split; [vm_compute; tauto|]. split; [reflexivity|].
    split; [vm_compute; reflexivity|]. vm_compute. reflexivity.
  - split; [vm_compute; reflexivity|]. split; [vm_compute; reflexivity|].
    vm_compute. reflexivity.
  - split; [vm_compute; reflexivity|]. split; [vm_compute; reflexivity|].
    vm_compute. discriminate.
Qed.

(** A fractional range is truncated after the subtraction from the day of
    the month: on the 15th, [dateRange = 1.5] gives day 13, a cutoff two
    days before the clock reading. *)
Example dateRange_fraction :
  cutoffDate Examples.env (JS.decimal 15 (-1))
    = Some (Examples.clock - 2 * JS.msPerDay).
Proof. vm_compute. reflexivity. Qed.

(* ===================================================================== *)
(** * Further properties *)
(* ===================================================================== *)

(** ** The filter engine as a single predicate *)

Lemma filter_fuse {A : Type} (p q : A -> bool) (l : list A) :
  List.filter p (List.filter q l) = List.filter (fun x => q x && p x) l.
Proof.
  induction l as [|x l IH]; simpl; [reflexivity|].
  destruct (q x); simpl; [destruct (p x)|]; rewrite IH; reflexivity.
Qed.

Lemma filterWhen_filter (step : option (Transaction.t -> bool))
    (l : list Transaction.t) :
  filterWhen step l = List.filter (holds step) l.
Proof.
  destruct step as [callback|]; simpl; [reflexivity|].
  induction l as [|x l IH]; simpl; [reflexivity | rewrite <- IH; reflexivity].
Qed.

Lemma applyFilters_filter (env : JS.Env) (transactions : list Transaction.t)
    (filters : TransactionFilters.t) :
  applyFilters env transactions (Some filters)
  = List.filter (keeps env filters) transactions.
Proof.
  unfold applyFilters. rewrite !filterWhen_filter, !filter_fuse.
  apply List.filter_ext. intros t. unfold keeps. apply andb_assoc.
Qed.

Lemma filter_true {A : Type} (l : list A) : List.filter (fun _ => true) l = l.
Proof. induction l as [|x l IH]; simpl; [reflexivity | rewrite IH; reflexivity]. Qed.

Lemma applyFilters_option (env : JS.Env) (transactions : list Transaction.t)
    (filters : option TransactionFilters.t) :
  applyFilters env transactions filters
  = List.filter (fun t => match filters with
                          | Some f => keeps env f t
                          | None => true
                          end) transactions.
Proof.
  destruct filters as [f|]; [apply applyFilters_filter|].
  simpl. symmetry. apply filter_true.
Qed.

Lemma filter_sublist {A : Type} (p : A -> bool) (l : list A) :
  List.filter p l `sublist_of` l.
Proof.
  induction l as [|x l IH]; simpl; [constructor|].
  destruct (p x); constructor; exact IH.
Qed.

(** X1.  The active steps compose as a conjunction: a call with a filter
    object returns, in their original order, exactly the transactions for
    which every active callback holds. *)
Theorem X1_filters_compose_as_conjunction (env : JS.Env)
    (transactions : list Transaction.t) (filters : TransactionFilters.t) :
  applyFilters env transactions (Some filters)
    = List.filter (keeps env filters) transactions
  /\ forall t,
       In t (applyFilters env transactions (Some filters)) <->
       In t transactions
       /\ holds (statusStep filters) t = true
       /\ holds (searchStep filters) t = true
       /\ holds (dateStep env filters) t = true.
Proof.
  split; [apply applyFilters_filter|].
  intros t. rewrite applyFilters_filter, filter_In. unfold keeps.
  rewrite !andb_true_iff. tauto.
Qed.

(** X2.  The result is a sublist of the input: nothing is added,
    duplicated or reordered, whatever the filter argument. *)
Theorem X2_result_is_sublist (env : JS.Env) (transactions : list Transaction.t)
    (filters : option TransactionFilters.t) :
  applyFilters env transactions filters `sublist_of` transactions
  /\ (length (applyFilters env transactions filters) <= length transactions)%nat.
Proof.
  assert (H : applyFilters env transactions filters `sublist_of` transactions).
  { destruct filters as [f|]; [|reflexivity].
    rewrite applyFilters_filter. apply filter_sublist. }
  split; [exact H | apply sublist_length; exact H].
Qed.

(** X3.  Calls compose: filtering by [f] and then by [g] gives the same
    result as filtering by [g] and then by [f], and filtering twice by the
    same filter object changes nothing (for one clock reading). *)
Theorem X3_calls_commute_and_are_idempotent (env : JS.Env)
    (transactions : list Transaction.t) (f g : option TransactionFilters.t) :
  applyFilters env (applyFilters env transactions f) g
    = applyFilters env (applyFilters env transactions g) f
  /\ applyFilters env (applyFilters env transactions f) f
     = applyFilters env transactions f.
Proof.
  rewrite !applyFilters_option, !filter_fuse. split.
  - apply List.filter_ext. intros t. apply andb_comm.
  - apply List.filter_ext. intros t. apply andb_diag.
Qed.

(** ** The status and search steps *)

Lemma toLowerCase_empty (s : string) : JS.toLowerCase s = "" <-> s = "".
Proof. destruct s; simpl; split; intros H; congruence. Qed.

Lemma lower_status_inj (a b : Status) :
  JS.toLowerCase (statusString a) = JS.toLowerCase (statusString b) -> a = b.
Proof. destruct a, b; vm_compute; intros H; first [reflexivity | discriminate H]. Qed.

Lemma matchesStatus_exact (s : string) (st : Status) (t : Transaction.t) :
  JS.toLowerCase s = JS.toLowerCase (statusString st) ->
  matchesStatus s t = sameStatus (Transaction.status t) st.
Proof.
  intros Hs. unfold matchesStatus. rewrite Hs.
  destruct (String.eqb_spec (JS.toLowerCase (statusString (Transaction.status t)))
                            (JS.toLowerCase (statusString st))) as [E|N].
  - apply lower_status_inj in E. rewrite E. destruct st; reflexivity.
  - destruct (Transaction.status t), st; try reflexivity; exfalso; apply N; reflexivity.
Qed.

Lemma applyFilters_status_exact (env : JS.Env) (transactions : list Transaction.t)
    (status : string) (canonical : Status)
    (dateRange limit offset : option JS.number) (searchQuery : option string) :
  JS.toLowerCase status = JS.toLowerCase (statusString canonical) ->
  applyFilters env transactions
    (Some {| TransactionFilters.status := Some status;
             TransactionFilters.dateRange := dateRange;
             TransactionFilters.searchQuery := searchQuery;
             TransactionFilters.limit := limit;
             TransactionFilters.offset := offset |})
  = applyFilters env
      (List.filter (fun t => sameStatus (Transaction.status t) canonical)
                   transactions)
      (Some {| TransactionFilters.status := None;
               TransactionFilters.dateRange := dateRange;
               TransactionFilters.searchQuery := searchQuery;
               TransactionFilters.limit := limit;
               TransactionFilters.offset := offset |}).
Proof.
  intros Hs. unfold applyFilters. f_equal. f_equal.
  unfold statusStep. cbn [TransactionFilters.status].
  assert (Hne : String.eqb status "" = false).
  { destruct (String.eqb_spec status "") as [->|]; [|reflexivity].
    destruct canonical; discriminate Hs. }
  assert (Hall : String.eqb status "all" = false).
  { destruct (String.eqb_spec status "all") as [->|]; [|reflexivity].
    destruct canonical; discriminate Hs. }
  rewrite Hne, Hall. simpl.
  apply List.filter_ext. intros t. apply matchesStatus_exact. exact Hs.
Qed.


(** X4.  The status filter is case-insensitive and exact: a status string
    that equals the name of a canonical status up to letter case keeps
    exactly the transactions with that status, before the other steps are
    applied. *)
Theorem X4_status_filter_exact (env : JS.Env) (transactions : list Transaction.t)
    (status : string) (canonical : Status)
    (dateRange limit offset : option JS.number) (searchQuery : option string) :
  JS.toLowerCase status = JS.toLowerCase (statusString canonical) ->
  applyFilters env transactions
    (Some {| TransactionFilters.status := Some status;
             TransactionFilters.dateRange := dateRange;
             TransactionFilters.searchQuery := searchQuery;
             TransactionFilters.limit := limit;
             TransactionFilters.offset := offset |})
  = applyFilters env
      (List.filter (fun t => sameStatus (Transaction.status t) canonical)
                   transactions)
      (Some {| TransactionFilters.status := None;
               TransactionFilters.dateRange := dateRange;
               TransactionFilters.searchQuery := searchQuery;
               TransactionFilters.limit := limit;
               TransactionFilters.offset := offset |}).
Proof. apply applyFilters_status_exact. Qed.

(** X4 (witness): the status string [Approved] on the synthetic dataset. *)
Lemma X4_status_filter_exact_witness :
  map Transaction.id
    (applyFilters Examples.env getMockTransactions
       (Some {| TransactionFilters.status := Some "Approved";
                TransactionFilters.dateRange := None;
                TransactionFilters.searchQuery := None;
                TransactionFilters.limit := None;
                TransactionFilters.offset := None |}))
  = ["TXN-001"; "TXN-002"].
Proof.
  rewrite (X4_status_filter_exact Examples.env getMockTransactions
             "Approved" APPROVED None None None None).
  - vm_compute. reflexivity.
  - vm_compute. reflexivity.
Defined.

(** X5.  A non-empty status string other than the exact sentinel [all]
    that is not a canonical status name up to letter case removes every
    transaction.  The sentinel is compared with its exact spelling, so
    [ALL] is such a string, and so is the one-L spelling [canceled]. *)
Theorem X5_unknown_status_keeps_nothing (env : JS.Env)
    (transactions : list Transaction.t) (status : string)
    (dateRange limit offset : option JS.number) (searchQuery : option string) :
  status <> "" -> status <> "all" ->
  (forall canonical,
     JS.toLowerCase status <> JS.toLowerCase (statusString canonical)) ->
  applyFilters env transactions
    (Some {| TransactionFilters.status := Some status;
             TransactionFilters.dateRange := dateRange;
             TransactionFilters.searchQuery := searchQuery;
             TransactionFilters.limit := limit;
             TransactionFilters.offset := offset |}) = [].
Proof.
  intros Hne Hall Hno.
  assert (Hnil : forall f, applyFilters env [] (Some f) = []).
  { intros f. rewrite applyFilters_filter. reflexivity. }
  assert (Hs : filterWhen
                 (statusStep {| TransactionFilters.status := Some status;
                                TransactionFilters.dateRange := dateRange;
                                TransactionFilters.searchQuery := searchQuery;
                                TransactionFilters.limit := limit;
                                TransactionFilters.offset := offset |})
                 transactions = []).
  { unfold statusStep. cbn [TransactionFilters.status].
    destruct (String.eqb_spec status ""); [contradiction|].
    destruct (String.eqb_spec status "all"); [contradiction|]. simpl.
    induction transactions as [|t l IH]; simpl; [reflexivity|].
    unfold matchesStatus at 1.
    destruct (String.eqb_spec
                (JS.toLowerCase (statusString (Transaction.status t)))
                (JS.toLowerCase status)) as [E|_]; [|exact IH].
    exfalso. apply (Hno (Transaction.status t)). symmetry. exact E. }
  unfold applyFilters. rewrite Hs.
  destruct (searchStep _), (dateStep env _); reflexivity.
Qed.

(** X5 (witness): the status strings [ALL] and [canceled]. *)
Lemma X5_unknown_status_witness :
  applyFilters Examples.env getMockTransactions
    (Some {| TransactionFilters.status := Some "ALL";
             TransactionFilters.dateRange := None;
             TransactionFilters.searchQuery := None;
             TransactionFilters.limit := None;
             TransactionFilters.offset := None |}) = []
  /\ applyFilters Examples.env getMockTransactions
       (Some {| TransactionFilters.status := Some "canceled";
                TransactionFilters.dateRange := None;
                TransactionFilters.searchQuery := None;
                TransactionFilters.limit := None;
                TransactionFilters.offset := None |}) = [].
Proof.
  split.
  - apply X5_unknown_status_keeps_nothing; try discriminate.
    intros canonical; destruct canonical; vm_compute; discriminate.
  - apply X5_unknown_status_keeps_nothing; try discriminate.
    intros canonical; destruct canonical; vm_compute; discriminate.
Defined.

Lemma prefix_iff (q s : string) :
  String.prefix q s = true <-> exists b, s = q +:+ b.
Proof.
  revert s. induction q as [|c q IH]; intros s.
  - split; [intros _; exists s; reflexivity | destruct s; reflexivity].
  - destruct s as [|d s]; simpl.
    + split; [discriminate | intros [b Hb]; discriminate Hb].
    + destruct (ascii_dec c d) as [->|Hne].
      * split.
        -- intros H. apply IH in H. destruct H as [b ->]. exists b. reflexivity.
        -- intros [b Hb]. apply IH. exists b.
           change (String d q +:+ b) with (String d (q +:+ b)) in Hb. congruence.
      * split; [discriminate|]. intros [b Hb].
        change (String c q +:+ b) with (String c (q +:+ b)) in Hb. congruence.
Qed.

(** [includes] is the substring test. *)
Lemma includes_iff (s q : string) :
  JS.includes s q = true <-> exists a b, s = a +:+ q +:+ b.
Proof.
  induction s as [|c s IH].
  - change (JS.includes "" q) with (String.prefix q "" || false).
    rewrite orb_false_r, prefix_iff. split.
    + intros [b Hb]. exists "", b. exact Hb.
    + intros [a [b Hab]]. destruct a; [eauto | discriminate Hab].
  - change (JS.includes (String c s) q)
      with (String.prefix q (String c s) || JS.includes s q).
    rewrite orb_true_iff, prefix_iff, IH. split.
    + intros [[b Hb] | [a [b Hab]]].
      * exists "", b. exact Hb.
      * exists (String c a), b.
        change (String c a +:+ q +:+ b) with (String c (a +:+ q +:+ b)).
        congruence.
    + intros [a [b Hab]]. destruct a as [|d a].
      * left. eauto.
      * right. exists a, b.
        change (String d a +:+ q +:+ b) with (String d (a +:+ q +:+ b)) in Hab.
        congruence.
Qed.

(** The four fields the search looks at, with the optional ones possibly
    absent. *)
Lemma matchesQuery_iff (query : string) (t : Transaction.t) :
  matchesQuery query t = true <->
  exists field,
    In (Some field) [ Transaction.customerName t; Transaction.customerEmail t;
                      Some (Transaction.id t); Transaction.description t ]
    /\ exists a b, JS.toLowerCase field = a +:+ query +:+ b.
Proof.
  unfold matchesQuery, fieldIncludes. rewrite !orb_true_iff. split.
  - intros [[[H|H]|H]|H].
    + destruct (Transaction.customerName t) as [f|]; [|discriminate].
      exists f. split; [simpl; tauto | apply includes_iff; exact H].
    + destruct (Transaction.customerEmail t) as [f|]; [|discriminate].
      exists f. split; [simpl; tauto | apply includes_iff; exact H].
    + exists (Transaction.id t). split; [simpl; tauto | apply includes_iff; exact H].
    + destruct (Transaction.description t) as [f|]; [|discriminate].
      exists f. split; [simpl; tauto | apply includes_iff; exact H].
  - intros [f [Hin Hsub]]. apply includes_iff in Hsub. simpl in Hin.
    destruct Hin as [E|[E|[E|[E|[]]]]].
    + left; left; left. rewrite E. exact Hsub.
    + left; left; right. rewrite E. exact Hsub.
    + left; right. injection E as ->. exact Hsub.
    + right. rewrite E. exact Hsub.
Qed.

(** X6.  The search is a case-insensitive substring search over four
    fields: with a non-empty query (and no other filter) a transaction is
    kept exactly when the lower-cased query occurs inside the lower-cased
    customer name, customer email, id or description; an absent field
    never matches. *)
Theorem X6_search_is_substring_match (env : JS.Env)
    (transactions : list Transaction.t) (searchQuery : string)
    (limit offset : option JS.number) (t : Transaction.t) :
  searchQuery <> "" ->
  (In t (applyFilters env transactions
           (Some {| TransactionFilters.status := None;
                    TransactionFilters.dateRange := None;
                    TransactionFilters.searchQuery := Some searchQuery;
                    TransactionFilters.limit := limit;
                    TransactionFilters.offset := offset |}))
   <->
   In t transactions
   /\ exists field,
        In (Some field) [ Transaction.customerName t; Transaction.customerEmail t;
                          Some (Transaction.id t); Transaction.description t ]
        /\ exists a b,
             JS.toLowerCase field = a +:+ JS.toLowerCase searchQuery +:+ b).
Proof.
  intros Hne. unfold applyFilters, statusStep, dateStep, searchStep.
  cbn [TransactionFilters.status TransactionFilters.dateRange
       TransactionFilters.searchQuery filterWhen].
  destruct (String.eqb_spec searchQuery ""); [contradiction|]. simpl negb.
  cbn [filterWhen]. rewrite filter_In, matchesQuery_iff. reflexivity.
Qed.

(** X6 (witness): the query [DOE] finds the customer John Doe. *)
Lemma X6_search_witness :
  In (nth 0 getMockTransactions (Examples.sampleTx CANCELLED JS.zero))
     (applyFilters Examples.env getMockTransactions
        (Some {| TransactionFilters.status := None;
                 TransactionFilters.dateRange := None;
                 TransactionFilters.searchQuery := Some "DOE";
                 TransactionFilters.limit := None;
                 TransactionFilters.offset := None |})).
Proof.
  apply (X6_search_is_substring_match Examples.env getMockTransactions "DOE"
           None None).
  - discriminate.
  - split; [left; reflexivity|].
    exists "John Doe". split; [left; reflexivity|].
    exists "john ", "". reflexivity.
Defined.

(** X7.  The letter case of the query does not matter: two queries with
    the same lower-cased form give the same result. *)
Theorem X7_search_ignores_query_case (env : JS.Env)
    (transactions : list Transaction.t) (q q' : string)
    (status : option string) (dateRange limit offset : option JS.number) :
  JS.toLowerCase q = JS.toLowerCase q' ->
  applyFilters env transactions
    (Some {| TransactionFilters.status := status;
             TransactionFilters.dateRange := dateRange;
             TransactionFilters.searchQuery := Some q;
             TransactionFilters.limit := limit;
             TransactionFilters.offset := offset |})
  = applyFilters env transactions
      (Some {| TransactionFilters.status := status;
               TransactionFilters.dateRange := dateRange;
               TransactionFilters.searchQuery := Some q';
               TransactionFilters.limit := limit;
               TransactionFilters.offset := offset |}).
Proof.
  intros Hq. unfold applyFilters. f_equal. f_equal.
  unfold searchStep. cbn [TransactionFilters.searchQuery].
  destruct (String.eqb_spec q "") as [->|Hne], (String.eqb_spec q' "") as [->|Hne'];
    simpl.
  - reflexivity.
  - exfalso. apply Hne'. apply toLowerCase_empty. rewrite <- Hq. reflexivity.
  - exfalso. apply Hne. apply toLowerCase_empty. rewrite Hq. reflexivity.
  - rewrite Hq. reflexivity.
Qed.

(** X7 (witness): the queries [Smith] and [SMITH]. *)
Lemma X7_search_case_witness :
  applyFilters Examples.env getMockTransactions
    (Some {| TransactionFilters.status := None;
             TransactionFilters.dateRange := None;
             TransactionFilters.searchQuery := Some "Smith";
             TransactionFilters.limit := None;
             TransactionFilters.offset := None |})
  = applyFilters Examples.env getMockTransactions
      (Some {| TransactionFilters.status := None;
               TransactionFilters.dateRange := None;
               TransactionFilters.searchQuery := Some "SMITH";
               TransactionFilters.limit := None;
               TransactionFilters.offset := None |}).
Proof.
  apply X7_search_ignores_query_case. vm_compute. reflexivity.
Defined.

(** ** The date step at its edges *)

Lemma filter_false {A : Type} (p : A -> bool) (l : list A) :
  (forall x, p x = false) -> List.filter p l = [].
Proof.
  intros Hp. induction l as [|x l IH]; simpl; [reflexivity|].
  rewrite Hp. exact IH.
Qed.

Lemma dateGe_invalid_cutoff (a : JS.timeValue) : JS.dateGe a None = false.
Proof. destruct a; reflexivity. Qed.

Lemma getDate_finite (env : JS.Env) :
  exists s m e, JS.getDate env (JS.newDate env) = S754_finite s m e.
Proof.
  unfold JS.getDate, JS.newDate.
  pose proof (DateFromTime_range (JS.LocalTime env (JS.now env))) as Hd.
  unfold JS.ofZ. rewrite dyadic_canon by lia. unfold JS.canon.
  destruct (Z.eqb_spec (JS.DateFromTime (JS.LocalTime env (JS.now env))) 0); [lia|].
  eauto.
Qed.

Lemma cutoffDate_infinite (env : JS.Env) (sign : bool) :
  cutoffDate env (S754_infinity sign) = None.
Proof.
  unfold cutoffDate. destruct (getDate_finite env) as (s & m & e & ->).
  reflexivity.
Qed.

(** X8.  An infinite [dateRange] makes the cutoff an invalid date, and the
    comparison with an invalid date is false for every transaction: the
    result is empty.  A [NaN] [dateRange] (what [parseInt] gives for a
    string without digits) is falsy and applies no date constraint. *)
Theorem X8_infinite_and_nan_date_range (env : JS.Env)
    (transactions : list Transaction.t) (status searchQuery : option string)
    (limit offset : option JS.number) (sign : bool) :
  applyFilters env transactions
    (Some {| TransactionFilters.status := status;
             TransactionFilters.dateRange := Some (S754_infinity sign);
             TransactionFilters.searchQuery := searchQuery;
             TransactionFilters.limit := limit;
             TransactionFilters.offset := offset |}) = []
  /\ applyFilters env transactions
       (Some {| TransactionFilters.status := status;
                TransactionFilters.dateRange := Some JS.NaN;
                TransactionFilters.searchQuery := searchQuery;
                TransactionFilters.limit := limit;
                TransactionFilters.offset := offset |})
     = applyFilters env transactions
         (Some {| TransactionFilters.status := status;
                  TransactionFilters.dateRange := None;
                  TransactionFilters.searchQuery := searchQuery;
                  TransactionFilters.limit := limit;
                  TransactionFilters.offset := offset |}).
Proof.
  split; [|reflexivity].
  unfold applyFilters, dateStep.
  cbn [TransactionFilters.dateRange JS.truthy_number filterWhen].
  apply filter_false. intros t. unfold onOrAfter.
  rewrite cutoffDate_infinite. apply dateGe_invalid_cutoff.
Qed.

(** X9.  Whenever the date step is active (any truthy [dateRange]), every
    transaction that is kept has a [createdDate] that parses, the cutoff is
    a valid date, and the parsed time is not before the cutoff: a
    transaction whose date does not parse is dropped. *)
Theorem X9_kept_dates_parse (env : JS.Env) (transactions : list Transaction.t)
    (filters : TransactionFilters.t) (dateRange : JS.number) (t : Transaction.t) :
  TransactionFilters.dateRange filters = Some dateRange ->
  JS.truthy_number dateRange = true ->
  In t (applyFilters env transactions (Some filters)) ->
  exists created cutoff,
    JS.DateParse env (Transaction.createdDate t) = Some created
    /\ cutoffDate env dateRange = Some cutoff
    /\ cutoff <= created.
Proof.
  intros Hd Ht Hin. rewrite applyFilters_filter, filter_In in Hin.
  destruct Hin as [_ Hk]. unfold keeps in Hk.
  rewrite !andb_true_iff in Hk. destruct Hk as [_ Hk].
  unfold dateStep in Hk. rewrite Hd, Ht in Hk. simpl in Hk.
  unfold onOrAfter, JS.newDateOf, JS.dateGe in Hk.
  destruct (JS.DateParse env (Transaction.createdDate t)) as [c|]; [|discriminate].
  destruct (cutoffDate env dateRange) as [k|]; [|discriminate].
  exists c, k. repeat split. apply Z.leb_le. exact Hk.
Qed.

(** X9 (witness): the newest synthetic record under a two-day range. *)
Lemma X9_kept_dates_parse_witness :
  exists created cutoff,
    JS.DateParse Examples.env "2025-01-15T10:30:00Z" = Some created
    /\ cutoffDate Examples.env (JS.ofZ 2) = Some cutoff
    /\ cutoff <= created.
Proof.
  apply (X9_kept_dates_parse Examples.env getMockTransactions
           (Examples.lastDays (JS.ofZ 2)) (JS.ofZ 2)
           (nth 0 getMockTransactions (Examples.sampleTx CANCELLED JS.zero))).
  - reflexivity.
  - vm_compute. reflexivity.
  - vm_compute. tauto.
Defined.

Lemma constant_offset_cutoff (env : JS.Env) (n : Z) :
  (forall t b, JS.LocalTZA env t b = JS.LocalTZA env (JS.now env) true) ->
  Z.abs n < 2 ^ 52 ->
  cutoffDate env (JS.ofZ n) = JS.TimeClip (JS.now env - n * JS.msPerDay).
Proof.
  intros Hconst Hn. rewrite cutoffDate_whole_days by exact Hn.
  f_equal. unfold JS.UTC, JS.LocalTime.
  rewrite (Hconst (JS.now env + _ - _) false). lia.
Qed.

Lemma filter_implies_sublist {A : Type} (p q : A -> bool) (l : list A) :
  (forall x, p x = true -> q x = true) ->
  List.filter p l `sublist_of` List.filter q l.
Proof.
  intros Hpq. induction l as [|x l IH]; simpl; [constructor|].
  destruct (p x) eqn:Hp.
  - rewrite (Hpq x Hp). constructor. exact IH.
  - destruct (q x); [constructor|]; exact IH.
Qed.

(** X10.  In a zone with a constant offset, a longer whole-day range keeps
    at least what a shorter one keeps, as long as both cutoffs are valid
    dates. *)
Theorem X10_longer_range_keeps_more (env : JS.Env)
    (transactions : list Transaction.t) (status searchQuery : option string)
    (limit offset : option JS.number) (n m : Z) :
  (forall t b, JS.LocalTZA env t b = JS.LocalTZA env (JS.now env) true) ->
  0 < n <= m -> m < 2 ^ 52 ->
  Z.abs (JS.now env - m * JS.msPerDay) <= 8640000000000000 ->
  applyFilters env transactions
    (Some {| TransactionFilters.status := status;
             TransactionFilters.dateRange := Some (JS.ofZ n);
             TransactionFilters.searchQuery := searchQuery;
             TransactionFilters.limit := limit;
             TransactionFilters.offset := offset |})
  `sublist_of`
  applyFilters env transactions
    (Some {| TransactionFilters.status := status;
             TransactionFilters.dateRange := Some (JS.ofZ m);
             TransactionFilters.searchQuery := searchQuery;
             TransactionFilters.limit := limit;
             TransactionFilters.offset := offset |}).
Proof.
  intros Hconst Hnm Hm Hvalid.
  unfold applyFilters, dateStep. cbn [TransactionFilters.dateRange].
  rewrite !ofZ_truthy by lia. cbn [filterWhen].
  rewrite !constant_offset_cutoff by (auto; lia).
  apply filter_implies_sublist. intros t.
  unfold onOrAfter, JS.newDateOf, JS.dateGe.
  destruct (JS.DateParse env (Transaction.createdDate t)) as [c|]; [|discriminate].
  unfold JS.TimeClip at 2.
  destruct (Z.ltb_spec 8640000000000000 (Z.abs (JS.now env - m * JS.msPerDay)));
    [lia|].
  destruct (JS.TimeClip (JS.now env - n * JS.msPerDay)) as [k|] eqn:Hk;
    [|discriminate].
  unfold JS.TimeClip in Hk.
  destruct (8640000000000000 <? Z.abs (JS.now env - n * JS.msPerDay));
    [discriminate|]. injection Hk as <-.
  rewrite !Z.leb_le. unfold JS.msPerDay. nia.
Qed.

(** X10 (witness): two and thirty days on the synthetic dataset. *)
Lemma X10_longer_range_witness :
  applyFilters Examples.env getMockTransactions
    (Some {| TransactionFilters.status := None;
             TransactionFilters.dateRange := Some (JS.ofZ 2);
             TransactionFilters.searchQuery := None;
             TransactionFilters.limit := None;
             TransactionFilters.offset := None |})
  `sublist_of`
  applyFilters Examples.env getMockTransactions
    (Some {| TransactionFilters.status := None;
             TransactionFilters.dateRange := Some (JS.ofZ 30);
             TransactionFilters.searchQuery := None;
             TransactionFilters.limit := None;
             TransactionFilters.offset := None |}).
Proof.
  apply X10_longer_range_keeps_more.
  - intros t b. reflexivity.
  - lia.
  - lia.
  - vm_compute. discriminate.
Defined.



(** ** The metrics aggregator on arbitrary amounts *)

Lemma fold_accumulate_buckets (txs : list Transaction.t) :
  forall m : TransactionMetrics.t,
    let r := fold_left accumulate txs m in
    TransactionMetrics.totalApproved r
      = fold_left JS.add (amountsOf APPROVED txs) (TransactionMetrics.totalApproved m)
    /\ TransactionMetrics.totalPending r
       = fold_left JS.add (amountsOf PENDING txs) (TransactionMetrics.totalPending m)
    /\ TransactionMetrics.totalDeclined r
       = fold_left JS.add (amountsOf DECLINED txs) (TransactionMetrics.totalDeclined m)
    /\ TransactionMetrics.totalRefunded r
       = fold_left JS.add (amountsOf REFUNDED txs) (TransactionMetrics.totalRefunded m)
    /\ TransactionMetrics.totalTransactions r = TransactionMetrics.totalTransactions m
    /\ TransactionMetrics.totalRevenue r
       = fold_left (fun acc t =>
                      match Transaction.status t with
                      | APPROVED => JS.add acc (Transaction.amount t)
                      | REFUNDED => JS.sub acc (Transaction.amount t)
                      | _ => acc
                      end) txs (TransactionMetrics.totalRevenue m).
Proof.
  induction txs as [|t txs IH]; intros m; simpl.
  - repeat split.
  - specialize (IH (accumulate m t)). simpl in IH.
    destruct IH as (Ha & Hp & Hd & Hr & Hc & Hv).
    rewrite Ha, Hp, Hd, Hr, Hc, Hv. unfold amountsOf, accumulate. simpl.
    destruct (Transaction.status t); simpl; repeat split.
Qed.

(** X12.  Each total is the left-to-right binary64 sum, starting from 0,
    of the amounts with its status, in the order of the collection;
    [totalRevenue] is the left-to-right sum of the APPROVED amounts and the
    negated REFUNDED amounts; [totalTransactions] is the length.  This
    holds for every collection, rounded or not, so a total depends only on
    the transactions of its own status. *)
Theorem X12_totals_are_ordered_sums (transactions : list Transaction.t) :
  TransactionMetrics.totalApproved (calculateMetrics transactions)
    = sumNumbers (amountsOf APPROVED transactions)
  /\ TransactionMetrics.totalPending (calculateMetrics transactions)
     = sumNumbers (amountsOf PENDING transactions)
  /\ TransactionMetrics.totalDeclined (calculateMetrics transactions)
     = sumNumbers (amountsOf DECLINED transactions)
  /\ TransactionMetrics.totalRefunded (calculateMetrics transactions)
     = sumNumbers (amountsOf REFUNDED transactions)
  /\ TransactionMetrics.totalTransactions (calculateMetrics transactions)
     = JS.ofZ (Z.of_nat (length transactions))
  /\ TransactionMetrics.totalRevenue (calculateMetrics transactions)
     = revenueOf transactions.
Proof.
  unfold calculateMetrics, sumNumbers, revenueOf.
  apply (fold_accumulate_buckets transactions).
Qed.

Lemma amountsOf_without (skip st : Status) (txs : list Transaction.t) :
  sameStatus skip st = false ->
  amountsOf st
    (List.filter (fun t => negb (sameStatus (Transaction.status t) skip)) txs)
  = amountsOf st txs.
Proof.
  intros Hne. unfold amountsOf. induction txs as [|t txs IH]; simpl; [reflexivity|].
  destruct (sameStatus (Transaction.status t) skip) eqn:Hs; simpl.
  - replace (sameStatus (Transaction.status t) st) with false; [exact IH|].
    destruct (Transaction.status t), skip, st; simpl in *; congruence.
  - destruct (sameStatus (Transaction.status t) st); simpl; rewrite IH; reflexivity.
Qed.

Lemma revenueOf_without (skip : Status) (txs : list Transaction.t) :
  sameStatus skip APPROVED = false -> sameStatus skip REFUNDED = false ->
  forall acc,
    fold_left (fun acc t =>
                 match Transaction.status t with
                 | APPROVED => JS.add acc (Transaction.amount t)
                 | REFUNDED => JS.sub acc (Transaction.amount t)
                 | _ => acc
                 end)
      (List.filter (fun t => negb (sameStatus (Transaction.status t) skip)) txs) acc
    = fold_left (fun acc t =>
                   match Transaction.status t with
                   | APPROVED => JS.add acc (Transaction.amount t)
                   | REFUNDED => JS.sub acc (Transaction.amount t)
                   | _ => acc
                   end) txs acc.
Proof.
  intros Ha Hr. induction txs as [|t txs IH]; intros acc; simpl; [reflexivity|].
  destruct (sameStatus (Transaction.status t) skip) eqn:Hs; simpl.
  - rewrite IH. destruct (Transaction.status t), skip; simpl in *;
      congruence.
  - apply IH.
Qed.

(** X13.  CANCELLED transactions are counted but enter no total: removing
    them from a collection changes [totalTransactions] only.  Likewise
    PENDING and DECLINED transactions never move [totalRevenue]. *)
Theorem X13_cancelled_only_counted (transactions : list Transaction.t) :
  let kept :=
    List.filter (fun t => negb (sameStatus (Transaction.status t) CANCELLED))
                transactions in
  TransactionMetrics.totalApproved (calculateMetrics kept)
    = TransactionMetrics.totalApproved (calculateMetrics transactions)
  /\ TransactionMetrics.totalPending (calculateMetrics kept)
     = TransactionMetrics.totalPending (calculateMetrics transactions)
  /\ TransactionMetrics.totalDeclined (calculateMetrics kept)
     = TransactionMetrics.totalDeclined (calculateMetrics transactions)
  /\ TransactionMetrics.totalRefunded (calculateMetrics kept)
     = TransactionMetrics.totalRefunded (calculateMetrics transactions)
  /\ TransactionMetrics.totalRevenue (calculateMetrics kept)
     = TransactionMetrics.totalRevenue (calculateMetrics transactions)
  /\ TransactionMetrics.totalTransactions (calculateMetrics transactions)
     = JS.ofZ (Z.of_nat (length transactions))
  /\ TransactionMetrics.totalRevenue
       (calculateMetrics
          (List.filter
             (fun t => negb (sameStatus (Transaction.status t) PENDING))
             (List.filter
                (fun t => negb (sameStatus (Transaction.status t) DECLINED))
                transactions)))
     = TransactionMetrics.totalRevenue (calculateMetrics transactions).
Proof.
  intros kept. subst kept.
  pose proof (fold_accumulate_buckets transactions) as H0.
  unfold calculateMetrics.
  repeat match goal with
         | |- context [fold_left accumulate ?l ?m] =>
             let H := fresh "H" in
             pose proof (fold_accumulate_buckets l m) as H; simpl in H;
             destruct H as (? & ? & ? & ? & ? & ?);
             generalize dependent (fold_left accumulate l m); intros
         end.
  repeat split; try congruence.
  all: repeat match goal with H : _ = _ |- _ => rewrite H end.
  all: rewrite ?amountsOf_without, ?revenueOf_without by reflexivity; reflexivity.
Qed.

Lemma add_nan_l (x : JS.number) : JS.add JS.NaN x = JS.NaN.
Proof. reflexivity. Qed.

Lemma add_nan_r (x : JS.number) : JS.add x JS.NaN = JS.NaN.
Proof. destruct x; reflexivity. Qed.

Lemma sub_nan_r (x : JS.number) : JS.sub x JS.NaN = JS.NaN.
Proof. destruct x; reflexivity. Qed.

Lemma fold_add_nan (l : list JS.number) : fold_left JS.add l JS.NaN = JS.NaN.
Proof. induction l as [|x l IH]; simpl; [reflexivity | exact IH]. Qed.

Lemma fold_add_in_nan (l : list JS.number) :
  In JS.NaN l -> forall acc, fold_left JS.add l acc = JS.NaN.
Proof.
  induction l as [|x l IH]; intros Hin acc; simpl; [destruct Hin|].
  destruct Hin as [->|Hin]; [rewrite add_nan_r; apply fold_add_nan | apply IH, Hin].
Qed.

Lemma amountsOf_in (st : Status) (txs : list Transaction.t) (t : Transaction.t) :
  In t txs -> Transaction.status t = st ->
  In (Transaction.amount t) (amountsOf st txs).
Proof.
  intros Hin Hst. unfold amountsOf. apply in_map. apply filter_In.
  split; [exact Hin|]. rewrite Hst. destruct st; reflexivity.
Qed.

Lemma revenue_fold_nan (txs : list Transaction.t) :
  fold_left (fun acc t =>
               match Transaction.status t with
               | APPROVED => JS.add acc (Transaction.amount t)
               | REFUNDED => JS.sub acc (Transaction.amount t)
               | _ => acc
               end) txs JS.NaN = JS.NaN.
Proof.
  induction txs as [|t txs IH]; simpl; [reflexivity|].
  destruct (Transaction.status t); exact IH.
Qed.

Lemma revenueOf_in_nan (txs : list Transaction.t) (t : Transaction.t) :
  In t txs -> Transaction.amount t = JS.NaN ->
  Transaction.status t = APPROVED \/ Transaction.status t = REFUNDED ->
  forall acc,
    fold_left (fun acc t =>
                 match Transaction.status t with
                 | APPROVED => JS.add acc (Transaction.amount t)
                 | REFUNDED => JS.sub acc (Transaction.amount t)
                 | _ => acc
                 end) txs acc = JS.NaN.
Proof.
  intros Hin Hnan Hst. induction txs as [|u txs IH]; intros acc; simpl;
    [destruct Hin|].
  destruct Hin as [->|Hin]; [|apply IH, Hin].
  rewrite Hnan. destruct Hst as [-> | ->].
  - rewrite add_nan_r. apply revenue_fold_nan.
  - rewrite sub_nan_r. apply revenue_fold_nan.
Qed.

(** X14.  One [NaN] amount (what an unparsable provider amount becomes)
    turns the total of its status into [NaN], wherever it stands in the
    collection, and also [totalRevenue] when the status is APPROVED or
    REFUNDED. *)
Theorem X14_nan_amount_poisons_totals (transactions : list Transaction.t)
    (t : Transaction.t) :
  In t transactions ->
  Transaction.amount t = JS.NaN ->
  (Transaction.status t = APPROVED ->
   TransactionMetrics.totalApproved (calculateMetrics transactions) = JS.NaN
   /\ TransactionMetrics.totalRevenue (calculateMetrics transactions) = JS.NaN)
  /\ (Transaction.status t = REFUNDED ->
      TransactionMetrics.totalRefunded (calculateMetrics transactions) = JS.NaN
      /\ TransactionMetrics.totalRevenue (calculateMetrics transactions) = JS.NaN)
  /\ (Transaction.status t = PENDING ->
      TransactionMetrics.totalPending (calculateMetrics transactions) = JS.NaN)
  /\ (Transaction.status t = DECLINED ->
      TransactionMetrics.totalDeclined (calculateMetrics transactions) = JS.NaN).
Proof.
  intros Hin Hnan.
  destruct (fold_accumulate_buckets transactions
              {| TransactionMetrics.totalApproved := JS.zero;
                 TransactionMetrics.totalPending := JS.zero;
                 TransactionMetrics.totalDeclined := JS.zero;
                 TransactionMetrics.totalRefunded := JS.zero;
                 TransactionMetrics.totalTransactions :=
                   JS.ofZ (Z.of_nat (length transactions));
                 TransactionMetrics.totalRevenue := JS.zero |})
    as (Ha & Hp & Hd & Hr & _ & Hv).
  simpl in Ha, Hp, Hd, Hr, Hv. unfold calculateMetrics.
  assert (Hsum : forall st, Transaction.status t = st ->
                            forall acc, fold_left JS.add (amountsOf st transactions) acc
                                        = JS.NaN).
  { intros st Hst. apply fold_add_in_nan. rewrite <- Hnan.
    apply amountsOf_in; assumption. }
  split; [|split; [|split]]; intros Hst.
  - split.
    + rewrite Ha. apply Hsum, Hst.
    + rewrite Hv. apply (revenueOf_in_nan transactions t); auto.
  - split.
    + rewrite Hr. apply Hsum, Hst.
    + rewrite Hv. apply (revenueOf_in_nan transactions t); auto.
  - rewrite Hp. apply Hsum, Hst.
  - rewrite Hd. apply Hsum, Hst.
Qed.

(** X14 (witness): a refund with the amount string [abc] after an approved
    payment. *)
Lemma X14_nan_amount_witness :
  TransactionMetrics.totalRefunded
    (calculateMetrics
       [ Examples.sampleTx APPROVED (JS.decimal 10 0);
         transformRefundToTransaction Examples.env
           (Examples.sampleRefund (Some "abc")) None ]) = JS.NaN
  /\ TransactionMetrics.totalRevenue
       (calculateMetrics
          [ Examples.sampleTx APPROVED (JS.decimal 10 0);
            transformRefundToTransaction Examples.env
              (Examples.sampleRefund (Some "abc")) None ]) = JS.NaN.
Proof.
  apply (X14_nan_amount_poisons_totals
           [ Examples.sampleTx APPROVED (JS.decimal 10 0);
             transformRefundToTransaction Examples.env
               (Examples.sampleRefund (Some "abc")) None ]
           (transformRefundToTransaction Examples.env
              (Examples.sampleRefund (Some "abc")) None)).
  - right. left. reflexivity.
  - vm_compute. reflexivity.
  - reflexivity.
Defined.

Lemma shl_align_fst_pos (m : positive) (e e' : Z) :
  0 < Zpos (fst (shl_align m e e')).
Proof. lia. Qed.

Lemma add_sign (x y : JS.number) :
  JS.is_negative x = false -> JS.is_negative y = false ->
  JS.is_negative (JS.add x y) = false.
Proof.
  intros Hx Hy.
  destruct x as [sx|sx| |sx mx ex], y as [sy|sy| |sy my ey];
    try (destruct sx; try discriminate Hx);
    try (destruct sy; try discriminate Hy);
    try reflexivity.
  unfold JS.add, SFadd. apply binary_normalize_sign. simpl cond_Zopp. lia.
Qed.

Lemma fold_add_sign (l : list JS.number) :
  (forall x, In x l -> JS.is_negative x = false) ->
  forall acc, JS.is_negative acc = false ->
              JS.is_negative (fold_left JS.add l acc) = false.
Proof.
  induction l as [|x l IH]; intros Hl acc Hacc; simpl; [exact Hacc|].
  apply IH; [intros y Hy; apply Hl; right; exact Hy|].
  apply add_sign; [exact Hacc | apply Hl; left; reflexivity].
Qed.

(** X15.  When no amount is negative, none of [totalApproved],
    [totalPending], [totalDeclined] and [totalRefunded] is negative
    (rounding and overflow cannot turn a sum of such amounts negative);
    [totalRevenue] can be, as on the synthetic dataset. *)
Theorem X15_totals_not_negative (transactions : list Transaction.t) :
  (forall t, In t transactions ->
             JS.is_negative (Transaction.amount t) = false) ->
  JS.is_negative (TransactionMetrics.totalApproved (calculateMetrics transactions))
    = false
  /\ JS.is_negative (TransactionMetrics.totalPending (calculateMetrics transactions))
     = false
  /\ JS.is_negative (TransactionMetrics.totalDeclined (calculateMetrics transactions))
     = false
  /\ JS.is_negative (TransactionMetrics.totalRefunded (calculateMetrics transactions))
     = false.
Proof.
  intros Hpos.
  destruct (fold_accumulate_buckets transactions
              {| TransactionMetrics.totalApproved := JS.zero;
                 TransactionMetrics.totalPending := JS.zero;
                 TransactionMetrics.totalDeclined := JS.zero;
                 TransactionMetrics.totalRefunded := JS.zero;
                 TransactionMetrics.totalTransactions :=
                   JS.ofZ (Z.of_nat (length transactions));
                 TransactionMetrics.totalRevenue := JS.zero |})
    as (Ha & Hp & Hd & Hr & _ & _).
  simpl in Ha, Hp, Hd, Hr. unfold calculateMetrics.
  assert (Hb : forall st x, In x (amountsOf st transactions) ->
                            JS.is_negative x = false).
  { intros st x Hx. unfold amountsOf in Hx. apply in_map_iff in Hx.
    destruct Hx as (t & <- & Ht). apply filter_In in Ht. apply Hpos, Ht. }
  rewrite Ha, Hp, Hd, Hr.
  repeat split; apply fold_add_sign; try reflexivity; apply Hb.
Qed.

(** X15 (witness): the synthetic dataset, whose revenue is negative. *)
Lemma X15_totals_not_negative_witness :
  (JS.is_negative (TransactionMetrics.totalApproved (calculateMetrics getMockTransactions))
     = false
   /\ JS.is_negative (TransactionMetrics.totalPending (calculateMetrics getMockTransactions))
      = false
   /\ JS.is_negative (TransactionMetrics.totalDeclined (calculateMetrics getMockTransactions))
      = false
   /\ JS.is_negative (TransactionMetrics.totalRefunded (calculateMetrics getMockTransactions))
      = false)
  /\ JS.is_negative (TransactionMetrics.totalRevenue (calculateMetrics getMockTransactions))
     = true.
Proof.
  split; [|vm_compute; reflexivity].
  apply X15_totals_not_negative.
  intros t Ht. repeat (destruct Ht as [<-|Ht]; [vm_compute; reflexivity|]).
  destruct Ht.
Defined.

(** ** The record transformer *)

Lemma append_nonempty_r (a b : string) : b <> "" -> a +:+ b <> "".
Proof. intros Hb H. destruct a; [apply Hb; exact H | discriminate H]. Qed.

Lemma append_nonempty_l (a b : string) : a <> "" -> a +:+ b <> "".
Proof. intros Ha H. destruct a; [apply Ha; reflexivity | discriminate H]. Qed.

Lemma orElse_nonempty (a : option string) (d : string) :
  d <> "" -> JS.orElse a d <> "".
Proof.
  intros Hd. unfold JS.orElse. destruct a as [s|]; [|exact Hd].
  destruct (String.eqb_spec s ""); [exact Hd | assumption].
Qed.

Lemma toISOString_nonempty (t : Z) : JS.toISOString t <> "".
Proof.
  unfold JS.toISOString. repeat apply append_nonempty_r. discriminate.
Qed.

Lemma customerName_nonempty (order : option Wix.Order.t) :
  getCustomerNameFromOrder order <> "".
Proof.
  unfold getCustomerNameFromOrder.
  repeat match goal with
         | |- context [match ?x with Some _ => _ | None => _ end] => destruct x
         | |- context [if ?b then _ else _] => destruct b
         end;
    first [discriminate | apply append_nonempty_r; discriminate].
Qed.

Lemma transformPayment_complete (env : JS.Env) (payment : Wix.Payment.t)
    (order : option Wix.Order.t) :
  complete (transformPaymentToTransaction env payment order).
Proof.
  unfold complete, filled. simpl. repeat split.
  - apply orElse_nonempty, append_nonempty_l. discriminate.
  - apply orElse_nonempty, orElse_nonempty. discriminate.
  - apply orElse_nonempty. discriminate.
  - apply orElse_nonempty, toISOString_nonempty.
  - eexists. split; [reflexivity | apply customerName_nonempty].
  - eexists. split; [reflexivity | apply orElse_nonempty; discriminate].
  - eexists. split; [reflexivity | apply append_nonempty_l; discriminate].
Qed.

Lemma transformRefund_complete (env : JS.Env) (refund : Wix.Refund.t)
    (order : option Wix.Order.t) :
  complete (transformRefundToTransaction env refund order).
Proof.
  unfold complete, filled. simpl. repeat split.
  - apply orElse_nonempty, append_nonempty_l. discriminate.
  - apply orElse_nonempty, orElse_nonempty. discriminate.
  - discriminate.
  - apply orElse_nonempty, toISOString_nonempty.
  - eexists. split; [reflexivity | apply customerName_nonempty].
  - eexists. split; [reflexivity | apply orElse_nonempty; discriminate].
  - eexists. split; [reflexivity | apply append_nonempty_l; discriminate].
Qed.

Lemma collectTransactions_forall (P : Transaction.t -> Prop) (env : JS.Env)
    (filters : option TransactionFilters.t) (orders : list Wix.Order.t)
    (otxs : list Wix.OrderTransactions.t) :
  (forall payment order, P (transformPaymentToTransaction env payment order)) ->
  (forall refund order, P (transformRefundToTransaction env refund order)) ->
  forall t, In t (collectTransactions env filters orders otxs) -> P t.
Proof.
  intros Hp Hr t Hin. unfold collectTransactions in Hin.
  apply in_flat_map in Hin. destruct Hin as (otx & _ & Hin).
  apply in_app_or in Hin.
  destruct Hin as [Hin|Hin]; apply filter_In in Hin; destruct Hin as [Hin _];
    apply in_map_iff in Hin; destruct Hin as (x & <- & _); auto.
Qed.

(** Every transaction of a fetch result is a synthetic record or a
    transformed payment or refund. *)
Lemma fetchTransactions_forall (P : Transaction.t -> Prop) (env : JS.Env)
    (provider : Provider) (filters : option TransactionFilters.t)
    (r : FetchResult.t) :
  (forall payment order, P (transformPaymentToTransaction env payment order)) ->
  (forall refund order, P (transformRefundToTransaction env refund order)) ->
  (forall t, In t getMockTransactions -> P t) ->
  fetchTransactions env provider filters = Ok r ->
  forall t, In t (FetchResult.data r) -> P t.
Proof.
  intros Hp Hr Hm Hf. unfold fetchTransactions, fetchFromSdk in Hf.
  destruct provider as [ecom|e]; simpl in Hf;
    [|injection Hf as <-; exact Hm].
  destruct (Ecom.searchOrders ecom) as [sr|e]; simpl in Hf;
    [|injection Hf as <-; exact Hm].
  destruct (Wix.SearchOrdersResponse.orders sr) as [[|o os]|]; simpl in Hf;
    try (injection Hf as <-; exact Hm).
  destruct (Ecom.listTransactionsForMultipleOrders ecom _) as [tr|e]; simpl in Hf;
    [|injection Hf as <-; exact Hm].
  injection Hf as <-. simpl.
  destruct (Wix.ListTransactionsResponse.orderTransactions tr) as [otxs|];
    [|intros t []].
  apply collectTransactions_forall; assumption.
Qed.

Lemma mock_complete (t : Transaction.t) : In t getMockTransactions -> complete t.
Proof.
  intros H. unfold complete, filled.
  repeat (destruct H as [<-|H];
          [simpl; repeat split; try discriminate;
           eexists; (split; [reflexivity | discriminate])|]).
  destruct H.
Qed.

(** X16.  Every transformed payment and refund, and therefore every
    transaction of every fetch result (live or synthetic), has a non-empty
    id, currency, payment method and creation date and a present,
    non-empty customer name, customer email and description, whatever the
    provider record lacks. *)
Theorem X16_fetched_transactions_are_complete (env : JS.Env)
    (payment : Wix.Payment.t) (refund : Wix.Refund.t)
    (order : option Wix.Order.t) :
  complete (transformPaymentToTransaction env payment order)
  /\ complete (transformRefundToTransaction env refund order)
  /\ forall provider filters r,
       fetchTransactions env provider filters = Ok r ->
       forall t, In t (FetchResult.data r) -> complete t.
Proof.
  split; [apply transformPayment_complete|].
  split; [apply transformRefund_complete|].
  intros provider filters r. apply fetchTransactions_forall.
  - apply transformPayment_complete.
  - apply transformRefund_complete.
  - apply mock_complete.
Qed.

(** ** The fetch orchestrator on the live path *)

(** X17.  [fetchTransactions] always resolves.  It reports
    [usingMockData = false] exactly when the module loads, the order search
    returns at least one order and the transaction listing returns; in
    every other case the data is the synthetic dataset, unfiltered. *)
Theorem X17_live_exactly_when_provider_answers (env : JS.Env)
    (provider : Provider) (filters : option TransactionFilters.t) :
  exists r,
    fetchTransactions env provider filters = Ok r
    /\ (FetchResult.usingMockData r = false <-> Live provider)
    /\ (FetchResult.usingMockData r = true ->
        FetchResult.data r = getMockTransactions).
Proof.
  unfold fetchTransactions, fetchFromSdk, Live.
  destruct provider as [ecom|e]; simpl.
  2:{ eexists. split; [reflexivity|]. simpl. split; [|reflexivity].
      split; [discriminate|]. intros (? & ? & ? & ? & ? & H & _). discriminate H. }
  destruct (Ecom.searchOrders ecom) as [sr|e] eqn:Hs; simpl.
  2:{ eexists. split; [reflexivity|]. simpl. split; [|reflexivity].
      split; [discriminate|].
      intros (? & ? & ? & ? & ? & H & H1 & _). injection H as <-. congruence. }
  destruct (Wix.SearchOrdersResponse.orders sr) as [[|o os]|] eqn:Ho; simpl.
  - eexists. split; [reflexivity|]. simpl. split; [|reflexivity].
    split; [discriminate|].
    intros (? & ? & ? & ? & ? & H & H1 & H2 & _). injection H as <-.
    rewrite Hs in H1. injection H1 as <-. congruence.
  - destruct (Ecom.listTransactionsForMultipleOrders ecom _) as [tr|e] eqn:Hl; simpl.
    + eexists. split; [reflexivity|]. simpl. split; [|discriminate].
      split; [|reflexivity]. intros _. exists ecom, sr, o, os, tr. auto.
    + eexists. split; [reflexivity|]. simpl. split; [|reflexivity].
      split; [discriminate|].
      intros (? & ? & ? & ? & ? & H & H1 & H2 & H3). injection H as <-.
      rewrite Hs in H1. injection H1 as <-. rewrite Ho in H2.
      injection H2 as <- <-. simpl in H3. congruence.
  - eexists. split; [reflexivity|]. simpl. split; [|reflexivity].
    split; [discriminate|].
    intros (? & ? & ? & ? & ? & H & H1 & H2 & _). injection H as <-.
    rewrite Hs in H1. injection H1 as <-. congruence.
Qed.

Lemma passesStatus_holds (f : TransactionFilters.t) (t : Transaction.t) :
  passesStatus (Some f) t = holds (statusStep f) t.
Proof.
  unfold passesStatus, statusStep, JS.truthy, JS.show. simpl.
  destruct (TransactionFilters.status f) as [s|]; [|reflexivity].
  destruct (String.eqb s ""); simpl; [reflexivity|].
  destruct (String.eqb s "all"); reflexivity.
Qed.

Lemma filter_flat_map {A B : Type} (p : B -> bool) (g : A -> list B) (l : list A) :
  List.filter p (flat_map g l) = flat_map (fun x => List.filter p (g x)) l.
Proof.
  induction l as [|x l IH]; simpl; [reflexivity|].
  rewrite List.filter_app, IH. reflexivity.
Qed.

Lemma collectTransactions_prefilter (env : JS.Env) (f : TransactionFilters.t)
    (orders : list Wix.Order.t) (otxs : list Wix.OrderTransactions.t) :
  collectTransactions env (Some f) orders otxs
  = List.filter (holds (statusStep f)) (collectTransactions env None orders otxs).
Proof.
  unfold collectTransactions. rewrite filter_flat_map.
  apply flat_map_ext. intros otx.
  rewrite List.filter_app, !filter_fuse. f_equal.
  - apply List.filter_ext. intros t. rewrite <- passesStatus_holds. reflexivity.
  - apply List.filter_ext. intros t. rewrite <- passesStatus_holds. reflexivity.
Qed.

(** X18.  On the live path the status given to [fetchTransactions] acts
    like the status step of [applyFilters] on the unfiltered fetch: the
    same transactions, in the same order.  On the fallback path the status
    is not applied: the synthetic dataset is returned whole. *)
Theorem X18_fetch_status_is_the_status_step (env : JS.Env) (provider : Provider)
    (f : TransactionFilters.t) (all : list Transaction.t) (mock : bool) :
  fetchTransactions env provider None
    = Ok {| FetchResult.data := all; FetchResult.usingMockData := mock |} ->
  fetchTransactions env provider (Some f)
    = Ok {| FetchResult.data :=
              if mock then all
              else applyFilters env all
                     (Some {| TransactionFilters.status :=
                                TransactionFilters.status f;
                              TransactionFilters.dateRange := None;
                              TransactionFilters.searchQuery := None;
                              TransactionFilters.limit := None;
                              TransactionFilters.offset := None |});
            FetchResult.usingMockData := mock |}.
Proof.
  unfold fetchTransactions, fetchFromSdk.
  destruct provider as [ecom|e]; simpl;
    [|intros H; injection H as <- <-; reflexivity].
  destruct (Ecom.searchOrders ecom) as [sr|e]; simpl;
    [|intros H; injection H as <- <-; reflexivity].
  destruct (Wix.SearchOrdersResponse.orders sr) as [[|o os]|]; simpl;
    try (intros H; injection H as <- <-; reflexivity).
  destruct (Ecom.listTransactionsForMultipleOrders ecom _) as [tr|e]; simpl;
    [|intros H; injection H as <- <-; reflexivity].
  intros H. injection H as <- <-. f_equal. f_equal.
  unfold statusStep at 1. cbn [TransactionFilters.status].
  fold (statusStep f).
  destruct (Wix.ListTransactionsResponse.orderTransactions tr) as [otxs|].
  - rewrite collectTransactions_prefilter, filterWhen_filter. reflexivity.
  - destruct (statusStep f); reflexivity.
Qed.

(** X18 (witness): the sample provider asked for declined transactions. *)
Lemma X18_fetch_status_witness :
  fetchTransactions Examples.env Examples.liveProvider
    (Some {| TransactionFilters.status := Some "declined";
             TransactionFilters.dateRange := None;
             TransactionFilters.searchQuery := None;
             TransactionFilters.limit := None;
             TransactionFilters.offset := None |})
  = Ok {| FetchResult.data := []; FetchResult.usingMockData := false |}.
Proof.
  rewrite (X18_fetch_status_is_the_status_step Examples.env Examples.liveProvider
             _ (TransactionService.collectTransactions Examples.env None
                  [Examples.sampleOrder]
                  [ {| Wix.OrderTransactions.orderId := Some "ORD-1";
                       Wix.OrderTransactions.payments := Some [Examples.oldPayment];
                       Wix.OrderTransactions.refunds := None |} ])
             false).
  - vm_compute. reflexivity.
  - vm_compute. reflexivity.
Defined.

Lemma filter_false_on {A : Type} (p : A -> bool) (l : list A) :
  (forall x, In x l -> p x = false) -> List.filter p l = [].
Proof.
  intros Hp. induction l as [|x l IH]; simpl; [reflexivity|].
  rewrite (Hp x) by (left; reflexivity). apply IH.
  intros y Hy. apply Hp. right. exact Hy.
Qed.

(** X19.  No fetch result contains a CANCELLED transaction: a payment
    becomes APPROVED, DECLINED, REFUNDED or PENDING, a refund REFUNDED, and
    the synthetic dataset has none.  So the dashboard's [cancelled] status
    option leaves nothing of any fetch result. *)
Theorem X19_no_cancelled_transactions (env : JS.Env) (provider : Provider)
    (filters : option TransactionFilters.t) (r : FetchResult.t) :
  fetchTransactions env provider filters = Ok r ->
  (forall t, In t (FetchResult.data r) -> Transaction.status t <> CANCELLED)
  /\ forall searchValue timePeriod,
       Dashboard.applyFilters env (FetchResult.data r)
         searchValue "cancelled" timePeriod = [].
Proof.
  intros Hf.
  assert (Hnc : forall t, In t (FetchResult.data r) -> Transaction.status t <> CANCELLED).
  { apply (fetchTransactions_forall (fun t => Transaction.status t <> CANCELLED) env provider filters r);
      [| | |exact Hf].
    - intros payment order. simpl. unfold paymentStatusOf.
      destruct (providerStatus payment) as [s|]; [|discriminate].
      repeat match goal with
             | |- context [if ?b then _ else _] => destruct b
             end; discriminate.
    - intros refund order. simpl. discriminate.
    - intros t H.
      repeat (destruct H as [<-|H]; [simpl; discriminate|]). destruct H. }
  split; [exact Hnc|].
  intros searchValue timePeriod. unfold Dashboard.applyFilters.
  rewrite applyFilters_filter. apply filter_false_on.
  intros t Ht. apply Hnc in Ht. unfold keeps, Dashboard.filtersOf, statusStep.
  simpl. unfold matchesStatus.
  destruct (Transaction.status t); try reflexivity. exfalso. apply Ht. reflexivity.
Qed.

(** X19 (witness): the sample provider. *)
Lemma X19_no_cancelled_witness :
  Dashboard.applyFilters Examples.env
    (TransactionService.collectTransactions Examples.env None
       [Examples.sampleOrder]
       [ {| Wix.OrderTransactions.orderId := Some "ORD-1";
            Wix.OrderTransactions.payments := Some [Examples.oldPayment];
            Wix.OrderTransactions.refunds := None |} ])
    "" "cancelled" "365" = [].
Proof.
  apply (X19_no_cancelled_transactions Examples.env Examples.liveProvider None
           {| FetchResult.data :=
                TransactionService.collectTransactions Examples.env None
                  [Examples.sampleOrder]
                  [ {| Wix.OrderTransactions.orderId := Some "ORD-1";
                       Wix.OrderTransactions.payments := Some [Examples.oldPayment];
                       Wix.OrderTransactions.refunds := None |} ];
              FetchResult.usingMockData := false |}).
  vm_compute. reflexivity.
Defined.






(** ** The dashboard's filter controls *)

(** X21.  Every id of the time-period dropdown is read by [parseInt] as
    the whole number of days its label names, so the date step is active
    and its cutoff lies that many local calendar days before the clock
    reading. *)
Theorem X21_time_period_options (env : JS.Env) (transactions : list Transaction.t)
    (searchValue filterValue timePeriod : string) (days : Z) :
  In (timePeriod, days) timePeriodDays ->
  map fst timePeriodDays = map fst Dashboard.TIME_PERIOD_OPTIONS
  /\ JS.parseInt timePeriod = JS.ofZ days
  /\ Dashboard.applyFilters env transactions searchValue filterValue timePeriod
     = List.filter
         (fun t =>
            JS.dateGe (JS.DateParse env (Transaction.createdDate t))
              (JS.TimeClip
                 (JS.UTC env (JS.LocalTime env (JS.now env) - days * JS.msPerDay))))
         (applyFilters env transactions
            (Some {| TransactionFilters.status :=
                       if negb (String.eqb filterValue "all")
                       then Some filterValue else None;
                     TransactionFilters.dateRange := None;
                     TransactionFilters.searchQuery :=
                       if String.eqb searchValue "" then None else Some searchValue;
                     TransactionFilters.limit := None;
                     TransactionFilters.offset := None |})).
Proof.
  intros Hin. split; [reflexivity|].
  assert (Hp : JS.parseInt timePeriod = JS.ofZ days /\ 0 < days < 1000).
  { simpl in Hin.
    repeat (destruct Hin as [E|Hin];
            [injection E as <- <-; split; [vm_compute; reflexivity | lia]|]).
    destruct Hin. }
  destruct Hp as [Hp Hd]. split; [exact Hp|].
  unfold Dashboard.applyFilters, Dashboard.filtersOf, applyFilters, dateStep.
  cbn [TransactionFilters.dateRange]. rewrite Hp.
  rewrite ofZ_truthy by lia. rewrite cutoffDate_whole_days by lia.
  reflexivity.
Qed.

(** X21 (witness): the default period of thirty days. *)
Lemma X21_time_period_witness :
  JS.parseInt "30" = JS.ofZ 30
  /\ Dashboard.applyFilters Examples.env getMockTransactions "" "all" "30"
     = getMockTransactions.
Proof.
  destruct (X21_time_period_options Examples.env getMockTransactions
              "" "all" "30" 30) as (_ & Hp & Hf).
  - right. left. reflexivity.
  - split; [exact Hp|]. rewrite Hf. vm_compute. reflexivity.
Defined.

(** X22.  Every id of the status dropdown other than [all] selects exactly
    the transactions of the canonical status it names, and [all] selects
    every status: the list shown for an id is the list shown for [all] on
    the transactions of that status. *)
Theorem X22_status_options (env : JS.Env) (transactions : list Transaction.t)
    (searchValue filterValue timePeriod : string) (meaning : option Status) :
  In (filterValue, meaning) statusOptionMeaning ->
  map fst statusOptionMeaning = map fst Dashboard.TRANSACTION_STATUS_OPTIONS
  /\ Dashboard.applyFilters env transactions searchValue filterValue timePeriod
     = Dashboard.applyFilters env
         (match meaning with
          | Some canonical =>
              List.filter (fun t => sameStatus (Transaction.status t) canonical)
                          transactions
          | None => transactions
          end)
         searchValue "all" timePeriod.
Proof.
  intros Hin. split; [reflexivity|].
  unfold Dashboard.applyFilters, Dashboard.filtersOf.
  simpl in Hin.
  destruct Hin as [E|Hin]; [injection E as <- <-; reflexivity|].
  repeat (destruct Hin as [E|Hin];
          [injection E as <- <-;
           apply applyFilters_status_exact; vm_compute; reflexivity|]).
  destruct Hin.
Qed.

(** X22 (witness): the option [refunded] on the synthetic dataset. *)
Lemma X22_status_options_witness :
  map Transaction.id
    (Dashboard.applyFilters Examples.env getMockTransactions "" "refunded" "30")
  = ["TXN-005"].
Proof.
  destruct (X22_status_options Examples.env getMockTransactions
              "" "refunded" "30" (Some REFUNDED)) as [_ H].
  - do 4 right. left. reflexivity.
  - rewrite H. vm_compute. reflexivity.
Defined.

(** X23.  The synthetic records carry fixed dates in January 2025.  Once
    the clock is more than the selected number of days past the newest of
    them (2025-01-15T10:30:00Z), the dashboard shows none of them, whatever
    the search and status controls: in a zone with a constant offset and
    with a host that parses their dates as UTC date-times. *)
Theorem X23_synthetic_data_ages_out (env : JS.Env)
    (searchValue filterValue timePeriod : string) (days : Z) :
  In (timePeriod, days) timePeriodDays ->
  (forall t, In t getMockTransactions ->
             JS.DateParse env (Transaction.createdDate t)
             = JS.isoParse (Transaction.createdDate t)) ->
  (forall t b, JS.LocalTZA env t b = JS.LocalTZA env (JS.now env) true) ->
  1736937000000 + days * JS.msPerDay < JS.now env ->
  Dashboard.applyFilters env getMockTransactions
    searchValue filterValue timePeriod = [].
Proof.
  intros Hin Hparse Hconst Hlate.
  assert (Hp : JS.parseInt timePeriod = JS.ofZ days /\ 0 < days < 1000).
  { simpl in Hin.
    repeat (destruct Hin as [E|Hin];
            [injection E as <- <-; split; [vm_compute; reflexivity | lia]|]).
    destruct Hin. }
  destruct Hp as [Hp Hd].
  unfold Dashboard.applyFilters. rewrite applyFilters_filter.
  apply filter_false_on. intros t Ht.
  unfold keeps. apply andb_false_intro2.
  unfold dateStep, Dashboard.filtersOf. cbn [TransactionFilters.dateRange].
  rewrite Hp, ofZ_truthy by lia. cbn [holds].
  rewrite constant_offset_cutoff by (auto; lia).
  unfold onOrAfter, JS.newDateOf. rewrite (Hparse t Ht).
  assert (Hc : exists c, JS.isoParse (Transaction.createdDate t) = Some c
                         /\ c <= 1736937000000).
  { repeat (destruct Ht as [<-|Ht];
            [eexists; split; [vm_compute; reflexivity | lia]|]).
    destruct Ht. }
  destruct Hc as (c & -> & Hc).
  unfold JS.TimeClip.
  destruct (8640000000000000 <? Z.abs (JS.now env - days * JS.msPerDay));
    [reflexivity|].
  simpl. apply Z.leb_gt. lia.
Qed.

(** X23 (witness): the default thirty days on 2025-03-01. *)
Lemma X23_synthetic_data_ages_out_witness :
  Dashboard.applyFilters (JS.utcEnv 1740787200000) getMockTransactions
    "" "all" "30" = [].
Proof.
  apply (X23_synthetic_data_ages_out (JS.utcEnv 1740787200000) "" "all" "30" 30).
  - right. left. reflexivity.
  - intros t Ht. reflexivity.
  - intros t b. reflexivity.
  - vm_compute. reflexivity.
Defined.

(** ** Refunded payments and refund records together *)

(** X24.  A payment whose provider status is REFUNDED or
    PARTIALLY_REFUNDED enters [totalRefunded] with its full amount, and the
    refund record of the same order enters it again: for such a payment
    followed by a refund, [totalRefunded] is the sum of both amounts,
    [totalRevenue] is lowered by both, and nothing is approved. *)
Theorem X24_refunded_payment_and_refund_both_count (env : JS.Env)
    (payment : Wix.Payment.t) (refund : Wix.Refund.t)
    (order : option Wix.Order.t) :
  providerStatus payment = Some "REFUNDED"
  \/ providerStatus payment = Some "PARTIALLY_REFUNDED" ->
  calculateMetrics
    [ transformPaymentToTransaction env payment order;
      transformRefundToTransaction env refund order ]
  = {| TransactionMetrics.totalApproved := JS.zero;
       TransactionMetrics.totalPending := JS.zero;
       TransactionMetrics.totalDeclined := JS.zero;
       TransactionMetrics.totalRefunded :=
         JS.add
           (JS.add JS.zero
              (JS.parseFloat (JS.orElse (paymentAmount payment) "0")))
           (JS.parseFloat (JS.orElse (refundAmount refund) "0"));
       TransactionMetrics.totalTransactions := JS.ofZ 2;
       TransactionMetrics.totalRevenue :=
         JS.sub
           (JS.sub JS.zero
              (JS.parseFloat (JS.orElse (paymentAmount payment) "0")))
           (JS.parseFloat (JS.orElse (refundAmount refund) "0")) |}.
Proof.
  intros Hs. unfold calculateMetrics. cbn [fold_left length].
  unfold accumulate at 2.
  assert (Hst : Transaction.status (transformPaymentToTransaction env payment order)
                = REFUNDED).
  { simpl. unfold paymentStatusOf. destruct Hs as [-> | ->]; reflexivity. }
  rewrite Hst. reflexivity.
Qed.

(** X24 (witness): a partially refunded payment of 100.00 and a refund of
    40.00 give 140 refunded and a revenue of -140. *)
Lemma X24_refunded_payment_witness :
  calculateMetrics
    [ transformPaymentToTransaction Examples.env
        (Examples.samplePayment (Some "100.00") (Some "PARTIALLY_REFUNDED")
           "2025-01-14T08:00:00Z") None;
      transformRefundToTransaction Examples.env
        (Examples.sampleRefund (Some "40.00")) None ]
  = {| TransactionMetrics.totalApproved := JS.zero;
       TransactionMetrics.totalPending := JS.zero;
       TransactionMetrics.totalDeclined := JS.zero;
       TransactionMetrics.totalRefunded := JS.decimal 140 0;
       TransactionMetrics.totalTransactions := JS.ofZ 2;
       TransactionMetrics.totalRevenue := JS.decimal_signed true 140 0 |}.
Proof.
  rewrite (X24_refunded_payment_and_refund_both_count Examples.env
             (Examples.samplePayment (Some "100.00") (Some "PARTIALLY_REFUNDED")
                "2025-01-14T08:00:00Z")
             (Examples.sampleRefund (Some "40.00")) None).
  - vm_compute. reflexivity.
  - right. reflexivity.
Defined.
